(** * FinPath: transaction aggregation, budget rules and goal allocation

    A shallow embedding of the derived-state computations of the FinPath
    web client:

    - [frontend/src/contexts/BankContext.ts]  ([calculateFinancialData]),
    - the home page's [budgetRules] table and the [Progress] bar,
    - [frontend/src/components/GoalsPage.tsx] ([calculateAvgMonthlySavings],
      the [monthly_contribution] computation of [handleAddGoal] and
      [computeRebalanceAllocations]).

    Conventions of the model.

    - A JavaScript [number] that carries money is a rational ([Q]). The
      engine computes in binary64: [Binary64] has its four operations, each
      rounded to the nearest binary64 number, and [GoalsPage64] has the
      savings baseline, the monthly contribution and the rebalance in that
      arithmetic; the values these computations return are stated there.
      [GoalsPage] has the contribution and the rebalance with exact
      rationals, as [BankContext] and the views have their sums and
      ratios: what is stated there is about sums, bounds and orderings
      before rounding. The infinities and the overflow of binary64 are
      outside the model, except in [Number], for the one division the code
      leaves unguarded. A [number] that comes out of [parseFloat] or
      [parseInt] may be [NaN], which is [None].
    - [Math.round] is [floor (x + 1/2)], an integer ([Z]).
    - A [Date] is either invalid or its local calendar fields; the order of
      valid dates is the lexicographic order of those fields.
    - [new Date()] is a parameter [now] of every function that reads the
      clock. *)

From Stdlib Require Import QArith Qpower Qround Qminmax Qabs ZArith Lia Lqa Ascii.
From Stdlib Require SpecFloat.
From stdpp Require Import gmap strings list fin_maps pretty sorting.

Local Open Scope Z_scope.

(** ** The JavaScript primitives the code relies on *)

Module JS.

(** [Math.round]: the nearest integer, halves towards plus infinity. *)
Definition Math_round (x : Q) : Z := Qfloor (x + (1 # 2))%Q.

(** [a > b] on numbers. *)
Definition gtb (a b : Q) : bool := negb (Qle_bool a b).

(** [x || d] on a number that cannot be [NaN]: zero is falsy. *)
Definition or_num (x d : Q) : Q := if Qeq_bool x 0%Q then d else x.

(** [x || d] on a number that may be [NaN]: zero and [NaN] are falsy. *)
Definition or_nan (x : option Q) (d : Q) : Q :=
  match x with
  | Some q => or_num q d
  | None => d
  end.

(** [s || d] on strings: the empty string is falsy. *)
Definition or_str (s d : string) : string :=
  match s with
  | EmptyString => d
  | _ => s
  end.

(** [p || d] on an optional string: [undefined] and [''] are falsy. *)
Definition or_undef (p : option string) (d : string) : string :=
  match p with
  | Some s => or_str s d
  | None => d
  end.

(** [String.prototype.toLowerCase], on the ASCII letters. *)
Definition lower_ascii (c : Ascii.ascii) : Ascii.ascii :=
  let n := Ascii.nat_of_ascii c in
  if ((65 <=? n)%nat && (n <=? 90)%nat)%bool
  then Ascii.ascii_of_nat (n + 32) else c.

Fixpoint toLowerCase (s : string) : string :=
  match s with
  | EmptyString => EmptyString
  | String c r => String (lower_ascii c) (toLowerCase r)
  end.

(** [String.prototype.includes]. *)
Fixpoint includes (s needle : string) : bool :=
  (String.prefix needle s
   || match s with
      | EmptyString => false
      | String _ r => includes r needle
      end)%bool.

(** The local calendar fields of a valid [Date]. *)
Record DateFields := mkDate {
  fullYear : Z;
  monthIndex : Z;      (* 0 = January .. 11 = December *)
  dayOfMonth : Z;      (* 1 .. 31 *)
  msOfDay : Z          (* milliseconds since local midnight *)
}.

Inductive Date :=
| InvalidDate
| ValidDate (f : DateFields).

(** [getMonth()] and [getFullYear()]: [NaN] ([None]) on an invalid date. *)
Definition getMonth (d : Date) : option Z :=
  match d with
  | InvalidDate => None
  | ValidDate f => Some (monthIndex f)
  end.

Definition getFullYear (d : Date) : option Z :=
  match d with
  | InvalidDate => None
  | ValidDate f => Some (fullYear f)
  end.

(** [x === n] where [x] may be [NaN] and [n] is a number. *)
Definition strict_eq (x : option Z) (n : Z) : bool :=
  match x with
  | Some v => v =? n
  | None => false
  end.

(** [new Date(year, month, 1)]: a year in 0..99 means 1900 + year, then
    the month index is normalised, carrying into the year. *)
Definition Date_ym1 (year month : Z) : DateFields :=
  let yr := if ((0 <=? year) && (year <=? 99))%bool then 1900 + year else year in
  {| fullYear := yr + month / 12;
     monthIndex := month mod 12;
     dayOfMonth := 1;
     msOfDay := 0 |}.

(** The order of two valid dates. *)
Definition fields_geb (a b : DateFields) : bool :=
  if fullYear a =? fullYear b then
    if monthIndex a =? monthIndex b then
      if dayOfMonth a =? dayOfMonth b then msOfDay b <=? msOfDay a
      else dayOfMonth b <? dayOfMonth a
    else monthIndex b <? monthIndex a
  else fullYear b <? fullYear a.

(** [d >= b]: an invalid date compares false with everything. *)
Definition Date_geb (d : Date) (b : DateFields) : bool :=
  match d with
  | InvalidDate => false
  | ValidDate a => fields_geb a b
  end.

(** [toLocaleDateString('en-US', { month: 'short' })]. *)
Definition monthShort (f : DateFields) : string :=
  nth (Z.to_nat (monthIndex f))
      ["Jan"; "Feb"; "Mar"; "Apr"; "May"; "Jun";
       "Jul"; "Aug"; "Sep"; "Oct"; "Nov"; "Dec"]%string ""%string.

End JS.

(** ** contexts/BankContext.ts *)

Module BankContext.
Import JS.

Inductive TxnType := credit | debit.

Definition TxnType_eqb (a b : TxnType) : bool :=
  match a, b with
  | credit, credit | debit, debit => true
  | _, _ => false
  end.

Record Transaction := mkTransaction {
  id : string;
  accountId : string;
  date : Date;
  type : TxnType;
  merchant : string;
  category : string;
  amount : Q
}.

Record MonthEntry := mkMonthEntry {
  month : string;
  income : Q;
  expense : Q
}.

Record CategoryEntry := mkCategoryEntry {
  name : string;
  value : Q;
  color : string
}.

Inductive InsightType := success | warning.

Record Insight := mkInsight {
  icon : string;
  text : string;
  insightType : InsightType
}.

Record FinancialData := mkFinancialData {
  totalIncome : Q;
  totalExpenses : Q;
  totalSavings : Q;
  monthlyData : list MonthEntry;
  categoryData : list CategoryEntry;
  insights : list Insight
}.

(** [txns.reduce((sum, t) => sum + t.amount, 0)]. *)
Definition sumAmounts (txns : list Transaction) : Q :=
  fold_left (fun sum t => (sum + amount t)%Q) txns 0%Q.

(** [t => txnDate.getMonth() === m && txnDate.getFullYear() === y]. *)
Definition inMonth (m y : Z) (t : Transaction) : bool :=
  (strict_eq (getMonth (date t)) m && strict_eq (getFullYear (date t)) y)%bool.

Definition isType (k : TxnType) (t : Transaction) : bool :=
  TxnType_eqb (type t) k.

(** One turn of the loop over the last six months. *)
Definition monthEntry (transactions : list Transaction)
    (currentYear currentMonth i : Z) : MonthEntry :=
  let date := Date_ym1 currentYear (currentMonth - i) in
  let monthTxns :=
    List.filter (inMonth (monthIndex date) (fullYear date)) transactions in
  {| month := monthShort date;
     income := sumAmounts (List.filter (isType credit) monthTxns);
     expense := sumAmounts (List.filter (isType debit) monthTxns) |}.

(** The [Map] from category to spend, its keys in insertion order. *)
Fixpoint categoryMap_get (c : string) (m : list (string * Q)) : option Q :=
  match m with
  | [] => None
  | (k, v) :: r => if String.eqb k c then Some v else categoryMap_get c r
  end.

Fixpoint categoryMap_set (c : string) (x : Q) (m : list (string * Q))
    : list (string * Q) :=
  match m with
  | [] => [(c, x)]
  | (k, v) :: r =>
      if String.eqb k c then (k, x) :: r else (k, v) :: categoryMap_set c x r
  end.

Definition colors : list string :=
  ["#4F46E5"; "#10B981"; "#F59E0B"; "#EF4444"; "#8B5CF6"; "#06B6D4"]%string.

Section WithLocale.
(** [Number.prototype.toLocaleString], given by the host. *)
Variable toLocaleString : Q -> string.

Definition savingsInsight (totalSavings : Q) : Insight :=
  {| icon := "💰";
     text := "Great job! You've saved ₹" +:+ toLocaleString totalSavings
             +:+ " this month";
     insightType := success |}.

Definition expenseInsight : Insight :=
  {| icon := "⚠️";
     text := "Your expenses are getting close to your income. Consider reviewing your budget.";
     insightType := warning |}.

Definition diningInsight (diningExpenses : Q) : Insight :=
  {| icon := "🍽️";
     text := "You've spent ₹" +:+ toLocaleString diningExpenses
             +:+ " on dining this month";
     insightType := warning |}.

Definition isDiningDebit (t : Transaction) : bool :=
  (includes (toLowerCase (category t)) "dining" && isType debit t)%bool.

(** [calculateFinancialData]: the value passed to [setFinancialData];
    [None] is [null]. *)
Definition calculateFinancialData (now : DateFields)
    (transactions : list Transaction) : option FinancialData :=
  if (length transactions =? 0)%nat then None
  else
    let currentMonth := monthIndex now in
    let currentYear := fullYear now in
    let monthlyTxns := List.filter (inMonth currentMonth currentYear) transactions in
    let totalIncome := sumAmounts (List.filter (isType credit) monthlyTxns) in
    let totalExpenses := sumAmounts (List.filter (isType debit) monthlyTxns) in
    let totalSavings := (totalIncome - totalExpenses)%Q in
    let monthlyData :=
      map (monthEntry transactions currentYear currentMonth) [5; 4; 3; 2; 1; 0] in
    let categoryMap :=
      fold_left
        (fun m t =>
           categoryMap_set (category t)
             (or_nan (categoryMap_get (category t) m) 0 + amount t)%Q m)
        (List.filter (isType debit) monthlyTxns) [] in
    let categoryData :=
      imap (fun index '(name, value) =>
              {| name := name; value := value;
                 color := nth (index mod length colors)%nat colors ""%string |})
           categoryMap in
    let insights1 :=
      if gtb totalSavings 0%Q then [savingsInsight totalSavings] else [] in
    let insights2 :=
      if gtb totalExpenses (totalIncome * 0.8)%Q
      then insights1 ++ [expenseInsight] else insights1 in
    let diningExpenses := sumAmounts (List.filter isDiningDebit monthlyTxns) in
    let insights3 :=
      if gtb diningExpenses 5000%Q
      then insights2 ++ [diningInsight diningExpenses] else insights2 in
    Some {| totalIncome := totalIncome;
            totalExpenses := totalExpenses;
            totalSavings := totalSavings;
            monthlyData := monthlyData;
            categoryData := categoryData;
            insights := insights3 |}.
End WithLocale.

End BankContext.

(** ** The home page: budget rules and the progress bar *)

Module HomePage.
Import JS BankContext.

Record BudgetRule := mkBudgetRule {
  label : string;
  value : Q;
  amount : string
}.

(** [components/ui/progress.tsx]: the percentage the bar is drawn with. *)
Definition Progress (value : Q) : Q := Qmax 0 (Qmin 100 value).

Inductive View :=
| NoDataAvailable
| Dashboard (budgetRules : list BudgetRule) (insights : list Insight).

Section WithLocale.
Variable toLocaleString : Q -> string.

Definition budgetRules (financialData : FinancialData) : list BudgetRule :=
  [ {| label := "Needs (50%)";
       value := Qmin ((totalExpenses financialData * 0.5)
                      / Qmax (totalIncome financialData * 0.5) 1 * 100) 100;
       amount := "₹" +:+ toLocaleString (totalExpenses financialData * 0.5)
                 +:+ " / ₹" +:+ toLocaleString (totalIncome financialData * 0.5) |};
    {| label := "Wants (30%)";
       value := Qmin ((totalExpenses financialData * 0.3)
                      / Qmax (totalIncome financialData * 0.3) 1 * 100) 100;
       amount := "₹" +:+ toLocaleString (totalExpenses financialData * 0.3)
                 +:+ " / ₹" +:+ toLocaleString (totalIncome financialData * 0.3) |};
    {| label := "Savings (20%)";
       value := Qmin (totalSavings financialData
                      / Qmax (totalIncome financialData * 0.2) 1 * 100) 100;
       amount := "₹" +:+ toLocaleString (totalSavings financialData)
                 +:+ " / ₹" +:+ toLocaleString (totalIncome financialData * 0.2) |} ]%Q.

(** Which of the two screens the page renders. *)
Definition HomePage (financialData : option FinancialData)
    (transactions : list Transaction) : View :=
  match financialData with
  | None => NoDataAvailable
  | Some fd =>
      if (length transactions =? 0)%nat then NoDataAvailable
      else Dashboard (budgetRules fd) (insights fd)
  end.
End WithLocale.

End HomePage.

(** ** components/GoalsPage.tsx, with exact rationals *)

Module GoalsPage.
Import JS.

Record Goal := mkGoal {
  id : string;
  title : string;
  target_amount : Q;
  current_amount : Q;
  duration_months : option Q;     (* [None]: the field is absent *)
  monthly_contribution : option Q;
  priority : option string
}.

Module Form.
Record NewGoalForm := mkForm {
  title : string;
  emoji : string;
  target_amount : string;
  category : string;
  deadline : string;
  description : string;
  duration_months : string;
  priority : string
}.
End Form.

(** The priority weight of [handleAddGoal] and [handleUpdateGoal]. *)
Definition priorityWeight (priority : string) : Q :=
  let k := toLowerCase (or_str priority "") in
  if String.eqb k "high" then 0.6%Q
  else if String.eqb k "low" then 0.25%Q
  else 0.4%Q.

(** The [monthly_contribution] computation, from the parsed form fields on:
    [ta] and [dm] are the values of [parseFloat] and [parseInt]. *)
Definition monthlyContribution (ta : option Q) (dm : option Z)
    (priority : string) (avgMonthlySavings : Q) : Z :=
  let targetPerMonth : option Q :=
    match dm with
    | Some d =>
        if 0 <? d then
          match ta with
          | Some a => Some (a / inject_Z d)%Q
          | None => None
          end
        else Some 0%Q
    | None => Some 0%Q
    end in
  let weight := priorityWeight priority in
  let cap := Math_round (weight * avgMonthlySavings) in
  let val := Qmin (or_nan targetPerMonth 0) (or_num (inject_Z cap) 0) in
  Z.max 0 (Math_round val).

Section WithParsers.
(** The host's [parseFloat] and [parseInt]; [None] is [NaN]. *)
Variable parseFloat : string -> option Q.
Variable parseInt : string -> option Z.

(** The [monthly_contribution] field that [handleAddGoal] and
    [handleUpdateGoal] send to the goal store. *)
Definition handleAddGoal_monthly_contribution (newGoal : Form.NewGoalForm)
    (avgMonthlySavings : Q) : Z :=
  let ta := parseFloat (or_str (Form.target_amount newGoal) "0") in
  let dm := parseInt (or_str (Form.duration_months newGoal) "0") in
  monthlyContribution ta dm (Form.priority newGoal) avgMonthlySavings.
End WithParsers.

(** [computeRebalanceAllocations]. *)
Definition weightOf (p : option string) : Z :=
  let k := toLowerCase (or_undef p "") in
  if String.eqb k "high" then 3
  else if String.eqb k "medium" then 2
  else 1.

Definition sumWeights (weights : list Z) : Z :=
  let s := fold_left Z.add weights 0 in
  if s =? 0 then 1 else s.

(** The body of the [forEach]: the allocation of goal [g] at index [i]. *)
Definition allocationOf (weights : list Z) (sumW : Z) (avgMonthlySavings : Q)
    (i : nat) (g : Goal) : Z :=
  let share := (inject_Z (default 0%Z (weights !! i)) / inject_Z sumW)%Q in
  let base := Math_round (share * avgMonthlySavings) in
  let remaining := Qmax 0 (target_amount g - current_amount g) in
  let months := Qmax 1 (or_nan (duration_months g) 6) in
  let targetPerMonth := Math_round (remaining / months) in
  Z.max 0 (Z.min base targetPerMonth).

(** [allocations[g.id] = f(g, i)]: a write into the record of allocations. *)
Definition write (f : nat -> Goal -> Z) (allocations : gmap string Z)
    (p : nat * Goal) : gmap string Z :=
  let '(i, g) := p in <[id g := f i g]> allocations.

Definition computeRebalanceAllocations (goals : list Goal)
    (avgMonthlySavings : Q) : gmap string Z :=
  if (length goals =? 0)%nat then ∅
  else
    let weights := map (fun g => weightOf (priority g)) goals in
    let sumW := sumWeights weights in
    fold_left (write (allocationOf weights sumW avgMonthlySavings))
              (imap pair goals) ∅.

End GoalsPage.

(** ** Reference definitions the properties are stated with *)

Module Spec.
Import JS BankContext.

(** The sum of a list of amounts. *)
Definition Qsum (l : list Q) : Q := foldr Qplus 0%Q l.

#[global] Instance TxnType_eq_dec : EqDecision TxnType.
Proof. solve_decision. Defined.

(** [t] is dated in calendar month [m] (0 = January) of year [y]. *)
Definition DatedIn (m y : Z) (t : Transaction) : Prop :=
  getMonth (date t) = Some m ∧ getFullYear (date t) = Some y.

#[global] Instance DatedIn_dec m y t : Decision (DatedIn m y t).
Proof. unfold DatedIn. apply _. Defined.

(** The sum of the amounts of the transactions of type [k] dated in month
    [m] of year [y]. *)
Definition monthTotal (k : TxnType) (m y : Z) (txns : list Transaction) : Q :=
  Qsum (amount <$> filter (λ t, type t = k ∧ DatedIn m y t) txns).

(** The debit spend of month [m] of year [y] in the categories whose
    name contains "dining", whatever the case of its letters. *)
Definition IsDining (t : Transaction) : Prop :=
  includes (toLowerCase (category t)) "dining" = true.

Definition diningTotal (m y : Z) (txns : list Transaction) : Q :=
  Qsum (amount <$> filter (λ t, type t = debit ∧ DatedIn m y t ∧ IsDining t) txns).


(** [e] is the entry of calendar month [m] of year [y]. *)
Definition entryOf (txns : list Transaction) (e : MonthEntry) (ym : Z * Z) : Prop :=
  month e = monthShort (mkDate ym.1 ym.2 1 0)
  ∧ (income e == monthTotal credit ym.2 ym.1 txns)%Q
  ∧ (expense e == monthTotal debit ym.2 ym.1 txns)%Q.

(** The months of the trailing window anchored at January of year [Y]:
    as the specification lists them, and as the loop visits them. *)
Definition trailingMonths_claimed (Y : Z) : list (Z * Z) :=
  [(Y - 1, 6); (Y - 1, 7); (Y - 1, 8); (Y - 1, 9); (Y - 1, 10); (Y - 1, 11); (Y, 0)].

Definition trailingMonths_january (Y : Z) : list (Z * Z) :=
  [(Y - 1, 7); (Y - 1, 8); (Y - 1, 9); (Y - 1, 10); (Y - 1, 11); (Y, 0)].

(** The count of calendar months up to the month of [f], and the year and
    month of such a count. *)
Definition monthNumber (f : DateFields) : Z := 12 * fullYear f + monthIndex f.

Definition monthOf (n : Z) : Z * Z := (n / 12, n mod 12).

(** The six months that end with the current one, oldest first. *)
Definition trailingMonths (now : DateFields) : list (Z * Z) :=
  (λ i, monthOf (monthNumber now - i)) <$> [5; 4; 3; 2; 1; 0].

(** The percentage of a budget bucket. *)
Definition progressPercentage (consumed allocatedTarget : Q) : Q :=
  Qmin (consumed / Qmax allocatedTarget 1 * 100) 100.

End Spec.

(** ** Reference definitions for the goal computations *)

Module GoalSpec.
Import JS BankContext GoalsPage.

(** The first day of the month six months before the current one. *)
Definition sixMonthsAgo (now : DateFields) : DateFields :=
  Date_ym1 (fullYear now) (monthIndex now - 6).

(** [t] is dated on or after that day. *)
Definition Recent (now : DateFields) (t : Transaction) : Prop :=
  Date_geb (date t) (sixMonthsAgo now) = true.

#[global] Instance Recent_dec now t : Decision (Recent now t).
Proof. unfold Recent. apply _. Defined.

(** The pace of a goal: its target spread over its duration. *)
Definition targetPerMonth (targetAmount : Q) (durationMonths : option Z) : Q :=
  match durationMonths with
  | Some d => if decide (0 < d) then (targetAmount / inject_Z d)%Q else 0%Q
  | None => 0%Q
  end.

(** The share of the savings a goal of this priority may claim. *)
Definition cap (priority : string) (savings : Q) : Z :=
  Math_round (priorityWeight priority * savings).

(** The priority scores of the rebalance: 3, 2, 1, and 1 for anything
    else; the letter case of the priority does not count. *)
Definition priorityScore (p : option string) : Z :=
  match p with
  | Some s =>
      if decide (toLowerCase s = "high") then 3
      else if decide (toLowerCase s = "medium") then 2
      else 1
  | None => 1
  end.

Definition totalScore (goals : list Goal) : Z :=
  foldr (λ g s, priorityScore (priority g) + s) 0 goals.

Definition base (goals : list Goal) (g : Goal) (savings : Q) : Z :=
  Math_round (inject_Z (priorityScore (priority g)) / inject_Z (totalScore goals)
              * savings).

(** [durationMonths or 6]: six when the duration is absent or zero. *)
Definition durationOr6 (g : Goal) : Q :=
  match duration_months g with
  | Some d => if Qeq_dec d 0 then 6%Q else d
  | None => 6%Q
  end.

Definition paceCap (g : Goal) : Z :=
  Math_round (Qmax 0 (target_amount g - current_amount g) / Qmax 1 (durationOr6 g)).

(** The sum of the allocations of a rebalance. *)
Definition totalAllocated (allocations : gmap string Z) : Z :=
  map_fold (λ _ v s, v + s) 0 allocations.

End GoalSpec.

(** ** Concrete ledgers, goals and host functions *)

Module Examples.
Import JS BankContext.

(** A rendering of [toLocaleString] in the en-US locale: the digits in
    groups of three, and up to three fraction digits. *)
Fixpoint groupDigits (fuel : nat) (n : Z) : string :=
  match fuel with
  | O => pretty n
  | S fuel' =>
      if n <? 1000 then pretty n
      else
        let r := n mod 1000 in
        groupDigits fuel' (n / 1000) +:+ ","
        +:+ (if r <? 10 then "00" else if r <? 100 then "0" else "") +:+ pretty r
  end.

Definition fractionDigits (r : Z) : string :=
  if r =? 0 then ""
  else
    let padded := (if r <? 10 then "00" else if r <? 100 then "0" else "") +:+ pretty r in
    let trimmed :=
      if r mod 100 =? 0 then pretty (r / 100)
      else if r mod 10 =? 0
           then (if r <? 100 then "0" else "") +:+ pretty (r / 10)
           else padded in
    "." +:+ trimmed.

Definition enUS (q : Q) : string :=
  let thousandths := Math_round (Qabs q * 1000) in
  (if Qlt_le_dec q 0 then (if thousandths =? 0 then "" else "-") else "")
  +:+ groupDigits 32 (thousandths / 1000) +:+ fractionDigits (thousandths mod 1000).

Definition november2025 : DateFields := mkDate 2025 10 15 0.
Definition january2025 : DateFields := mkDate 2025 0 15 0.

(** Scenario A of the specification. *)
Definition scenarioA : list Transaction :=
  [ mkTransaction "t1" "acc" (ValidDate (mkDate 2025 10 1 0)) credit
      "Employer" "salary" 45000;
    mkTransaction "t2" "acc" (ValidDate (mkDate 2025 10 3 0)) debit
      "Market" "groceries" 8200 ].

(** A month that spends more than it earns, a good part of it on dining. *)
Definition overspent : list Transaction :=
  [ mkTransaction "t1" "acc" (ValidDate (mkDate 2025 10 1 0)) credit
      "Employer" "salary" 10000;
    mkTransaction "t2" "acc" (ValidDate (mkDate 2025 10 5 0)) debit
      "Bistro" "Dining Out" 6500;
    mkTransaction "t3" "acc" (ValidDate (mkDate 2025 10 9 0)) debit
      "Landlord" "rent" 4000 ].

(** A single credit of July 2024. *)
Definition julyCredit : list Transaction :=
  [ mkTransaction "t1" "acc" (ValidDate (mkDate 2024 6 20 0)) credit
      "Employer" "salary" 100 ].

(** A single debit of the current month: nothing earned, 100 spent. *)
Definition onlyDebit : list Transaction :=
  [ mkTransaction "t1" "acc" (ValidDate (mkDate 2025 10 2 0)) debit
      "Market" "groceries" 100 ].

(** [parseInt] and [parseFloat] on plain decimal text: an optional sign,
    digits, and for [parseFloat] an optional fraction; what follows is
    ignored, and there is no number without a digit. *)
Definition digitOf (c : Ascii.ascii) : option Z :=
  let n := Z.of_nat (Ascii.nat_of_ascii c) in
  if ((48 <=? n) && (n <=? 57))%bool then Some (n - 48) else None.

Fixpoint digitsPrefix (s : string) (acc : option Z) : option Z * string :=
  match s with
  | EmptyString => (acc, s)
  | String c r =>
      match digitOf c with
      | Some d => digitsPrefix r (Some (10 * default 0 acc + d))
      | None => (acc, s)
      end
  end.

Fixpoint fractionPrefix (s : string) (scale : Q) (acc : Q) : Q :=
  match s with
  | EmptyString => acc
  | String c r =>
      match digitOf c with
      | Some d => fractionPrefix r (scale / 10) (acc + inject_Z d * (scale / 10))
      | None => acc
      end
  end%Q.

Definition unsigned (s : string) : Z * string :=
  match s with
  | String "-"%char r => (-1, r)
  | String "+"%char r => (1, r)
  | _ => (1, s)
  end.

Definition parseInt (s : string) : option Z :=
  let '(sign, r) := unsigned s in
  (λ n, sign * n) <$> (digitsPrefix r None).1.

Definition parseFloat (s : string) : option Q :=
  let '(sign, r) := unsigned s in
  match digitsPrefix r None with
  | (Some n, String "."%char f) =>
      Some (inject_Z sign * fractionPrefix f 1 (inject_Z n))%Q
  | (Some n, _) => Some (inject_Z (sign * n))
  | (None, String "."%char f) =>
      match f with
      | String c _ =>
          match digitOf c with
          | Some _ => Some (inject_Z sign * fractionPrefix f 1 0)%Q
          | None => None
          end
      | EmptyString => None
      end
  | (None, _) => None
  end.

(** Scenario C of the specification, as the form holds it. *)
Definition scenarioC : GoalsPage.Form.NewGoalForm :=
  GoalsPage.Form.mkForm "Car" "🎯" "100000" "General" "" "" "6" "high".

(** Scenario D: the same goal with the duration left empty. *)
Definition scenarioD : GoalsPage.Form.NewGoalForm :=
  GoalsPage.Form.mkForm "Car" "🎯" "100000" "General" "" "" "" "high".

(** Three goals of high priority, far from their targets. *)
Definition threeHigh : list GoalsPage.Goal :=
  [ GoalsPage.mkGoal "g1" "Car" 100000 0 (Some 6%Q) None (Some "high");
    GoalsPage.mkGoal "g2" "House" 100000 0 (Some 6%Q) None (Some "high");
    GoalsPage.mkGoal "g3" "Travel" 100000 0 (Some 6%Q) None (Some "high") ].

(** Scenario E: a high and a low priority goal. *)
Definition scenarioE : list GoalsPage.Goal :=
  [ GoalsPage.mkGoal "g1" "Car" 100000 0 (Some 6%Q) None (Some "high");
    GoalsPage.mkGoal "g2" "Phone" 3000 600 None None (Some "low") ].

(** Salary and rent in June and in November 2025, and a car bought a year
    before. *)
Definition halfYear : list Transaction :=
  [ mkTransaction "t1" "acc" (ValidDate (mkDate 2025 5 1 0)) credit
      "Employer" "salary" 30000;
    mkTransaction "t2" "acc" (ValidDate (mkDate 2025 5 2 0)) debit
      "Landlord" "rent" 12000;
    mkTransaction "t3" "acc" (ValidDate (mkDate 2025 10 1 0)) credit
      "Employer" "salary" 30000;
    mkTransaction "t4" "acc" (ValidDate (mkDate 2025 10 2 0)) debit
      "Landlord" "rent" 12000;
    mkTransaction "t5" "acc" (ValidDate (mkDate 2024 10 2 0)) debit
      "Garage" "car" 90000 ].

End Examples.

(** ** The rest of the three files *)

(** *** Numbers that an unguarded division can make non-finite

    [getProgressPercentage] divides by a stored target, which may be zero;
    its result is a [number] with the non-finite values. A stored zero is
    the positive zero. *)

Module Number.

Inductive number :=
| Num (q : Q)
| PosInfinity
| NegInfinity
| NaN.

(** The sign of a non-zero rational carried over to an infinity. *)
Definition signed (positive : bool) : number :=
  if positive then PosInfinity else NegInfinity.

Definition div (a b : number) : number :=
  match a, b with
  | NaN, _ | _, NaN => NaN
  | Num x, Num y =>
      if Qeq_bool y 0 then
        if Qeq_bool x 0 then NaN else signed (JS.gtb x 0)
      else Num (x / y)
  | Num _, _ => Num 0
  | PosInfinity, Num y => signed (Qle_bool 0 y)
  | NegInfinity, Num y => signed (negb (Qle_bool 0 y))
  | _, _ => NaN
  end.

Definition mul (a b : number) : number :=
  match a, b with
  | NaN, _ | _, NaN => NaN
  | Num x, Num y => Num (x * y)
  | Num x, PosInfinity | PosInfinity, Num x =>
      if Qeq_bool x 0 then NaN else signed (JS.gtb x 0)
  | Num x, NegInfinity | NegInfinity, Num x =>
      if Qeq_bool x 0 then NaN else signed (negb (JS.gtb x 0))
  | PosInfinity, PosInfinity | NegInfinity, NegInfinity => PosInfinity
  | _, _ => NegInfinity
  end.

Definition Math_min (a b : number) : number :=
  match a, b with
  | NaN, _ | _, NaN => NaN
  | NegInfinity, _ | _, NegInfinity => NegInfinity
  | PosInfinity, x | x, PosInfinity => x
  | Num x, Num y => Num (Qmin x y)
  end.

Definition Math_max (a b : number) : number :=
  match a, b with
  | NaN, _ | _, NaN => NaN
  | PosInfinity, _ | _, PosInfinity => PosInfinity
  | NegInfinity, x | x, NegInfinity => x
  | Num x, Num y => Num (Qmax x y)
  end.

(** [a >= b]. *)
Definition geb (a b : number) : bool :=
  match a, b with
  | NaN, _ | _, NaN => false
  | PosInfinity, _ | _, NegInfinity => true
  | _, PosInfinity | NegInfinity, _ => false
  | Num x, Num y => Qle_bool y x
  end.

End Number.

(** *** GoalsPage.tsx: progress, ordering, summary, dialogs *)

Module GoalsView.
Import JS GoalsPage Number.

Definition getProgressPercentage (current target : Q) : number :=
  Math_min (mul (div (Num current) (Num target)) (Num 100)) (Num 100).


(** [components/ui/progress.tsx] on a value that may not be finite. *)
Definition Progress (value : number) : number :=
  Math_max (Num 0) (Math_min (Num 100) value).

(** The comparator of the goal cards. *)
Definition rank (p : option string) : Z :=
  let k := toLowerCase (or_undef p "") in
  if String.eqb k "high" then 0
  else if String.eqb k "medium" then 1
  else 2.

Definition compareGoals (a b : Goal) : Q :=
  let r := rank (priority a) - rank (priority b) in
  if negb (r =? 0) then inject_Z r
  else
    let ar := (target_amount a - current_amount a)%Q in
    let br := (target_amount b - current_amount b)%Q in
    (br - ar)%Q.

(** [Array.prototype.sort(compare)] is a stable sort; it is modelled by
    insertion from the right, each element going in front of the first one
    it does not compare greater than. *)
Fixpoint sortInsert {A} (compare : A -> A -> Q) (x : A) (l : list A) : list A :=
  match l with
  | [] => [x]
  | y :: r =>
      if gtb (compare x y) 0 then y :: sortInsert compare x r else x :: y :: r
  end.

Definition Array_sort {A} (compare : A -> A -> Q) (l : list A) : list A :=
  foldr (sortInsert compare) [] l.

(** [[...goals].sort(...)]: the order of the goal cards. *)
Definition sortedGoals (goals : list Goal) : list Goal :=
  Array_sort compareGoals goals.

(** The counts of the goals summary. *)
Definition totalGoals (goals : list Goal) : nat := length goals.

Definition completedGoals (goals : list Goal) : nat :=
  length (List.filter
            (fun g => geb (getProgressPercentage (current_amount g) (target_amount g))
                          (Num 100))
            goals).

(** [suggestedGoal]. *)
Definition suggestedGoal (avgMonthlySavings : Q) : Z :=
  Math_round (avgMonthlySavings * 1.5).

(** A stored goal with the fields the dialogs read beside those of [Goal]. *)
Record GoalCard := mkGoalCard {
  goal : Goal;
  emoji : option string;
  category : option string;
  deadline : option string;
  description : option string
}.

(** The payload of [createGoal] and [updateGoal]. *)
Record GoalData := mkGoalData {
  data_title : string;
  data_target_amount : option Z;            (* [parseInt]: [None] is [NaN] *)
  data_current_amount : Q;
  data_category : string;
  data_deadline : option string;            (* [None] is [undefined] *)
  data_description : option string;
  data_duration_months : option (option Z); (* [None] is [undefined] *)
  data_priority : string;
  data_monthly_contribution : Z
}.

(** [s || undefined]. *)
Definition or_undefined (s : string) : option string :=
  match s with
  | EmptyString => None
  | _ => Some s
  end.

Section WithHost.
Variable parseFloat : string -> option Q.
Variable parseInt : string -> option Z.
(** [Number.prototype.toString] (and [String(n)]) and [toLocaleString]. *)
Variable Number_toString : Q -> string.
Variable toLocaleString : Q -> string.

Definition handleSetSuggestedGoal (avgMonthlySavings : Q) : Form.NewGoalForm :=
  {| Form.title := "Monthly Savings Goal";
     Form.emoji := "💰";
     Form.target_amount := Number_toString (inject_Z (suggestedGoal avgMonthlySavings));
     Form.category := "Savings";
     Form.deadline := "";
     Form.description :=
       "AI suggested goal based on your average savings of ₹"
       +:+ toLocaleString avgMonthlySavings +:+ "/month";
     Form.duration_months := "6";
     Form.priority := "medium" |}.

Definition openEditDialog (card : GoalCard) : Form.NewGoalForm :=
  {| Form.title := title (goal card);
     Form.emoji := or_undef (emoji card) "🎯";
     Form.target_amount := Number_toString (target_amount (goal card));
     Form.category := or_undef (category card) "";
     Form.deadline := or_undef (deadline card) "";
     Form.description := or_undef (description card) "";
     Form.duration_months :=
       match duration_months (goal card) with
       | Some d => if Qeq_bool d 0 then "" else Number_toString d
       | None => ""
       end;
     Form.priority := or_undef (priority (goal card)) "medium" |}.

(** The [goalData] both handlers build from the form. *)
Definition goalData (newGoal : Form.NewGoalForm) (current_amount : Q)
    (avgMonthlySavings : Q) : GoalData :=
  {| data_title := Form.title newGoal;
     data_target_amount := parseInt (Form.target_amount newGoal);
     data_current_amount := current_amount;
     data_category := or_str (Form.category newGoal) "General";
     data_deadline := or_undefined (Form.deadline newGoal);
     data_description := or_undefined (Form.description newGoal);
     data_duration_months :=
       match Form.duration_months newGoal with
       | EmptyString => None
       | s => Some (parseInt s)
       end;
     data_priority := or_str (Form.priority newGoal) "medium";
     data_monthly_contribution :=
       handleAddGoal_monthly_contribution parseFloat parseInt newGoal avgMonthlySavings |}.

(** [handleAddGoal]: the payload sent to [createGoal], if any; [uid] is
    [user?.uid]. *)
Definition handleAddGoal (uid : option string) (newGoal : Form.NewGoalForm)
    (avgMonthlySavings : Q) : option GoalData :=
  match or_undef uid "", Form.title newGoal, Form.target_amount newGoal with
  | EmptyString, _, _ | _, EmptyString, _ | _, _, EmptyString => None
  | _, _, _ => Some (goalData newGoal 0 avgMonthlySavings)
  end.

(** [handleUpdateGoal]: the goal id and the payload sent to [updateGoal], if
    any. *)
Definition handleUpdateGoal (uid : option string) (editingGoal : option GoalCard)
    (newGoal : Form.NewGoalForm) (avgMonthlySavings : Q) : option (string * GoalData) :=
  match or_undef uid "", editingGoal with
  | EmptyString, _ | _, None => None
  | _, Some card =>
      Some (id (goal card),
            goalData newGoal (current_amount (goal card)) avgMonthlySavings)
  end.
End WithHost.

End GoalsView.

(** *** GoalsPage.tsx: applying a rebalance *)

Module Rebalancing.
Import JS GoalsPage GoalsView.

(** The payload of the [updateGoal] calls of [applyRebalance]. *)
Record Update := mkUpdate {
  u_title : string;
  u_target_amount : Q;
  u_current_amount : Q;
  u_category : option string;
  u_deadline : option string;
  u_description : option string;
  u_duration_months : option Q;
  u_priority : string;
  u_monthly_contribution : Z
}.

Definition updateOf (card : GoalCard) (amount : Z) : Update :=
  {| u_title := title (goal card);
     u_target_amount := target_amount (goal card);
     u_current_amount := current_amount (goal card);
     u_category := category card;
     u_deadline := deadline card;
     u_description := description card;
     u_duration_months := duration_months (goal card);
     u_priority := or_undef (priority (goal card)) "medium";
     u_monthly_contribution := amount |}.

(** [applyRebalance]: the [updateGoal] calls it makes, in order, as pairs of
    goal id and payload. [entries] is [Object.entries(proposedAllocations)]. *)
Definition applyRebalance (uid : option string) (goals : list GoalCard)
    (entries : list (string * Z)) : list (string * Update) :=
  match or_undef uid "" with
  | EmptyString => []
  | _ =>
      omap (fun '(goalId, amount) =>
              match List.find (fun g => String.eqb (id (goal g)) goalId) goals with
              | Some card => Some (goalId, updateOf card amount)
              | None => None
              end)
           entries
  end.

End Rebalancing.

(** *** BankContext.ts: what [loadTransactions] makes of the records it gets *)

Module Loading.
Import JS BankContext.

(** A record of the transactions API, as far as the conversion reads it;
    [None] is a field that is missing. *)
Record RawTransaction := mkRaw {
  raw_id : string;
  raw_accountId : option string;
  raw_date : option string;
  raw_type : TxnType;
  raw_merchant : option string;
  raw_refined_merchant : option string;
  raw_description : option string;
  raw_category : option string;
  raw_amount : Q;
  raw_ai_insights : option string;
  raw_confidence_score : option Q;   (* [None]: not of type number *)
  raw_confidenceScore : option Q;
  raw_setuTransactionId : option string
}.

(** [a || b] on optional strings. *)
Definition or_else (a b : option string) : option string :=
  match a with
  | Some (String _ _) => a
  | _ => b
  end.

(** The fields of a converted transaction beside those of [Transaction];
    [setuData], an object handed on as it is, is left out. *)
Record Loaded := mkLoaded {
  txn : Transaction;
  description : option string;
  refinedMerchant : option string;
  aiInsights : option string;
  confidenceScore : option Q;
  setuTransactionId : option string
}.

Section WithDate.
(** [new Date(txn.date)]. *)
Variable Date_parse : option string -> Date.

Definition convert (r : RawTransaction) : Loaded :=
  {| txn :=
       {| id := raw_id r;
          accountId := or_undef (raw_accountId r) "";
          date := Date_parse (raw_date r);
          type := raw_type r;
          merchant :=
            or_undef (or_else (raw_refined_merchant r)
                        (or_else (raw_merchant r) (raw_description r))) "Unknown";
          category := or_undef (raw_category r) "other";
          amount := raw_amount r |};
     description := raw_description r;
     refinedMerchant := raw_refined_merchant r;
     aiInsights := raw_ai_insights r;
     confidenceScore :=
       match raw_confidence_score r with
       | Some c => Some c
       | None => raw_confidenceScore r
       end;
     setuTransactionId := raw_setuTransactionId r |}.

(** The new [transactions] state after [loadTransactions]: [response] is the
    [data] of a successful answer, [None] for a failure or an exception. *)
Definition loadTransactions (response : option (list RawTransaction)) : list Transaction :=
  match response with
  | Some data => map (fun r => txn (convert r)) data
  | None => []
  end.
End WithDate.

End Loading.

(** *** The cards of the home page *)

Module HomeStats.
Import JS BankContext.

(** A card; its icon, a component, is left out. *)
Record Stat := mkStat {
  label : string;
  value : string;
  change : string;
  trend : string;
  color : string
}.

Section WithLocale.
Variable toLocaleString : Q -> string.

Definition realStats (financialData : FinancialData) : list Stat :=
  [ {| label := "Total Income";
       value := "₹" +:+ toLocaleString (totalIncome financialData);
       change := "+12%"; trend := "up"; color := "emerald" |};
    {| label := "Total Spending";
       value := "₹" +:+ toLocaleString (totalExpenses financialData);
       change := "-5%"; trend := "down"; color := "red" |};
    {| label := "Savings Progress";
       value := "₹" +:+ toLocaleString (totalSavings financialData);
       change := if gtb (totalSavings financialData) 0 then "+18%" else "0%";
       trend := if gtb (totalSavings financialData) 0 then "up" else "down";
       color := "amber" |};
    {| label := "Predicted Savings";
       value := "₹" +:+ toLocaleString (totalIncome financialData * 0.2);
       change := "+8%"; trend := "up"; color := "indigo" |} ].
End WithLocale.

End HomeStats.

(** ** Reference definitions for the rest *)

Module MoreSpec.
Import JS BankContext Spec.

(** The debit spend of month [m] of year [y] in category [c]. *)
Definition categorySpend (c : string) (m y : Z) (txns : list Transaction) : Q :=
  Qsum (amount <$> filter (λ t, category t = c ∧ (type t = debit ∧ DatedIn m y t)) txns).

(** The step of the loop over the debits of the month. *)
Definition categoryStep (m : list (string * Q)) (t : Transaction) : list (string * Q) :=
  categoryMap_set (category t)
    (or_nan (categoryMap_get (category t) m) 0 + amount t)%Q m.

(** What holds of the map after the transactions [l]: its keys are distinct
    and are the categories of [l]; each value is the spend of its key; the
    values add up to the whole spend. *)
Definition categoryInvariant (l : list Transaction) (m : list (string * Q)) : Prop :=
  NoDup m.*1
  ∧ (∀ c, c ∈ m.*1 <-> ∃ t, t ∈ l ∧ category t = c)
  ∧ (∀ c, (or_nan (categoryMap_get c m) 0
           == Qsum (amount <$> filter (λ t, category t = c) l))%Q)
  ∧ (Qsum m.*2 == Qsum (amount <$> l))%Q.

(** What is left to save of a goal. *)
Definition remaining (g : GoalsPage.Goal) : Q :=
  (GoalsPage.target_amount g - GoalsPage.current_amount g)%Q.

(** The order of the goal cards: by priority rank, then by what is left to
    save, the larger first. *)
Definition goesBefore (a b : GoalsPage.Goal) : Prop :=
  GoalsView.rank (GoalsPage.priority a) < GoalsView.rank (GoalsPage.priority b)
  ∨ (GoalsView.rank (GoalsPage.priority a) = GoalsView.rank (GoalsPage.priority b)
     ∧ (remaining b <= remaining a)%Q).

(** Two goals the order does not tell apart. *)
Definition sameKey (a b : GoalsPage.Goal) : Prop :=
  GoalsView.rank (GoalsPage.priority a) = GoalsView.rank (GoalsPage.priority b)
  ∧ (remaining a == remaining b)%Q.

#[global] Instance Qeq_decision (x y : Q) : Decision (x == y)%Q := Qeq_dec x y.

#[global] Instance sameKey_dec (a b : GoalsPage.Goal) : Decision (sameKey a b).
Proof. unfold sameKey. apply _. Defined.

End MoreSpec.

(** ** More concrete inputs *)

Module MoreExamples.
Import JS BankContext.

(** A form whose target is not a number. *)
Definition noTarget : GoalsPage.Form.NewGoalForm :=
  GoalsPage.Form.mkForm "Car" "🎯" "abc" "General" "" "" "6" "high".

(** A goal that has reached its target, and one that has not. *)
Definition reached : GoalsPage.Goal :=
  GoalsPage.mkGoal "g1" "Phone" 3000 3200 (Some 6%Q) None (Some "high").

Definition pending : GoalsPage.Goal :=
  GoalsPage.mkGoal "g2" "Car" 100000 0 (Some 6%Q) None (Some "low").

Definition reachedAndPending : list GoalsPage.Goal := [reached; pending].

(** Two records of the transactions API: one with every optional field
    missing, one with a refined merchant and an empty category. *)
Definition bareRecord : Loading.RawTransaction :=
  Loading.mkRaw "r1" None (Some "2025-11-02") debit None None None None 250
                None None None None.

Definition refinedRecord : Loading.RawTransaction :=
  Loading.mkRaw "r2" (Some "acc") (Some "2025-11-03") debit (Some "AMZN*123")
                (Some "Amazon") (Some "card payment") (Some "") 999
                None None (Some (9 # 10)) None.

(** A stand-in for the date parser: every record is dated 2 November 2025. *)
Definition fixedDate (s : option string) : Date :=
  match s with
  | Some _ => ValidDate (mkDate 2025 10 2 0)
  | None => InvalidDate
  end.

(** Goals in the order the store returns them. *)
Definition unsorted : list GoalsPage.Goal :=
  [ GoalsPage.mkGoal "a" "Trip" 5000 1000 None None (Some "low");
    GoalsPage.mkGoal "b" "Car" 100000 0 (Some 6%Q) None (Some "High");
    GoalsPage.mkGoal "c" "Bike" 9000 5000 None None None;
    GoalsPage.mkGoal "d" "Fund" 50000 46000 None None (Some "low");
    GoalsPage.mkGoal "e" "House" 900000 100000 None None (Some "high") ].

(** A goal without a duration, as a card. *)
Definition phoneCard : GoalsView.GoalCard :=
  GoalsView.mkGoalCard
    (GoalsPage.mkGoal "g2" "Phone" 3000 600 None None (Some "low"))
    None None None None.

(** [Number.prototype.toString] on the integers; a fraction is cut off
    after three digits. *)
Definition plainNumber (q : Q) : string :=
  let thousandths := Math_round (Qabs q * 1000) in
  (if Qlt_le_dec q 0 then (if thousandths =? 0 then "" else "-") else "")
  +:+ pretty (thousandths / 1000) +:+ Examples.fractionDigits (thousandths mod 1000).

(** The goals of scenario E as cards. *)
Definition scenarioECards : list GoalsView.GoalCard :=
  [ GoalsView.mkGoalCard
      (GoalsPage.mkGoal "g1" "Car" 100000 0 (Some 6%Q) None (Some "high"))
      (Some "🚗") (Some "Vehicle") None None;
    phoneCard ].

End MoreExamples.

(** ** The arithmetic of the engine

    A JavaScript [number] is a binary64 floating-point number: [+], [-],
    [*] and [/] give the binary64 number nearest to the exact result, a
    tie going to the one whose last bit is zero. The finite binary64 numbers
    are rationals, so the four operations are modelled on [Q], as the exact
    operation followed by [nearest]. Beyond the largest binary64 number
    (about 1.8e308) the engine gives an infinity; [nearest] does not, and
    amounts of that size are outside the model. *)

Module Binary64.

(** [floor (log2 x)], for a positive [x]. *)
Definition ilog2 (x : Q) : Z :=
  let e := Z.log2 (Qnum x) - Z.log2 (Zpos (Qden x)) in
  if Qle_bool (2 ^ e) x then e else e - 1.

(** The nearest integer, a tie going to the even one. *)
Definition nearestEven (x : Q) : Z :=
  let f := Qfloor x in
  match (x - inject_Z f ?= 1 # 2)%Q with
  | Lt => f
  | Gt => f + 1
  | Eq => if Z.even f then f else f + 1
  end.

(** The exponent of the last bit of the binary64 numbers of the size of
    [x]: 53 significant bits, and 2^-1074 for the smallest numbers. *)
Definition exponent (x : Q) : Z := Z.max (ilog2 (Qabs x) - 52) (-1074).

(** The binary64 number nearest to [x], in lowest terms. *)
Definition nearest (x : Q) : Q :=
  if Qeq_bool x 0 then 0%Q
  else Qred (inject_Z (nearestEven (x / 2 ^ exponent x)) * 2 ^ exponent x).

(** The four operations. An operand is read as the binary64 number nearest
    to it, which is what a literal of the source, a parsed string or a stored
    amount denotes. *)
Definition add (x y : Q) : Q := nearest (nearest x + nearest y).

Definition sub (x y : Q) : Q := nearest (nearest x - nearest y).

Definition mul (x y : Q) : Q := nearest (nearest x * nearest y).

Definition div (x y : Q) : Q := nearest (nearest x / nearest y).

(** The Standard Library's reference implementation of the IEEE 754
    operations, [SpecFloat], works on a sign, a mantissa and an exponent:
    the value of such a number, and a binary64 rational written that way. *)
Definition valueOf (f : SpecFloat.spec_float) : Q :=
  match f with
  | SpecFloat.S754_finite s m e =>
      ((if s then - 1 else 1) * inject_Z (Zpos m) * 2 ^ e)%Q
  | _ => 0%Q
  end.

Definition encode (x : Q) : SpecFloat.spec_float :=
  let r := Qred x in
  let e := - Z.log2 (Zpos (Qden r)) in
  match Qnum r with
  | Z0 => SpecFloat.S754_zero false
  | Zpos m => SpecFloat.S754_finite false m e
  | Zneg m => SpecFloat.S754_finite true m e
  end.

End Binary64.

(** ** components/GoalsPage.tsx, in the arithmetic of the engine

    The savings baseline, the monthly contribution and the rebalance once
    more, with every sum, difference, product and quotient rounded as the
    engine rounds it. The parts of [GoalsPage] that do no arithmetic on
    amounts ([priorityWeight], [weightOf], [sumWeights], [write]) are
    shared. *)

Module GoalsPage64.
Import JS BankContext GoalsPage Binary64.

(** [calculateAvgMonthlySavings]. *)
Definition netStep (acc : Q) (t : Transaction) : Q :=
  match type t with
  | credit => add acc (amount t)
  | _ => sub acc (amount t)
  end.

Definition calculateAvgMonthlySavings (now : DateFields)
    (transactions : list Transaction) : Q :=
  if (length transactions =? 0)%nat then 3500%Q
  else
    let sixMonthsAgo := Date_ym1 (fullYear now) (monthIndex now - 6) in
    let recentTransactions :=
      List.filter (fun t => Date_geb (date t) sixMonthsAgo) transactions in
    let monthlySavings := div (fold_left netStep recentTransactions 0%Q) 6 in
    or_num (Qmax monthlySavings 0) 3500.

(** The [monthly_contribution] computation, from the parsed form fields on:
    [ta] and [dm] are the values of [parseFloat] and [parseInt]. *)
Definition monthlyContribution (ta : option Q) (dm : option Z)
    (priority : string) (avgMonthlySavings : Q) : Z :=
  let targetPerMonth : option Q :=
    match dm with
    | Some d =>
        if 0 <? d then
          match ta with
          | Some a => Some (div a (inject_Z d))
          | None => None
          end
        else Some 0%Q
    | None => Some 0%Q
    end in
  let weight := priorityWeight priority in
  let cap := Math_round (mul weight avgMonthlySavings) in
  let val := Qmin (or_nan targetPerMonth 0) (or_num (inject_Z cap) 0) in
  Z.max 0 (Math_round val).

Section WithParsers.
(** The host's [parseFloat] and [parseInt]; [None] is [NaN]. *)
Variable parseFloat : string -> option Q.
Variable parseInt : string -> option Z.

(** The [monthly_contribution] field that [handleAddGoal] and
    [handleUpdateGoal] send to the goal store. *)
Definition handleAddGoal_monthly_contribution (newGoal : Form.NewGoalForm)
    (avgMonthlySavings : Q) : Z :=
  let ta := parseFloat (or_str (Form.target_amount newGoal) "0") in
  let dm := parseInt (or_str (Form.duration_months newGoal) "0") in
  monthlyContribution ta dm (Form.priority newGoal) avgMonthlySavings.
End WithParsers.

(** [computeRebalanceAllocations]: the body of the [forEach]. *)
Definition allocationOf (weights : list Z) (sumW : Z) (avgMonthlySavings : Q)
    (i : nat) (g : Goal) : Z :=
  let share := div (inject_Z (default 0%Z (weights !! i))) (inject_Z sumW) in
  let base := Math_round (mul share avgMonthlySavings) in
  let remaining := Qmax 0 (sub (target_amount g) (current_amount g)) in
  let months := Qmax 1 (or_nan (duration_months g) 6) in
  let targetPerMonth := Math_round (div remaining months) in
  Z.max 0 (Z.min base targetPerMonth).

Definition computeRebalanceAllocations (goals : list Goal)
    (avgMonthlySavings : Q) : gmap string Z :=
  if (length goals =? 0)%nat then ∅
  else
    let weights := map (fun g => weightOf (priority g)) goals in
    let sumW := sumWeights weights in
    fold_left (write (allocationOf weights sumW avgMonthlySavings))
              (imap pair goals) ∅.

End GoalsPage64.

(** ** Reference definitions in the arithmetic of the engine *)

Module GoalSpec64.
Import JS BankContext GoalsPage Spec GoalSpec Binary64.

(** Credits minus debits, taken one after the other in the order of the
    ledger. *)
Definition net (txns : list Transaction) : Q :=
  fold_left (λ acc t, if decide (type t = credit) then add acc (amount t)
                      else sub acc (amount t))
            txns 0%Q.

(** The net of the transactions dated on or after the first day of the
    month six months before the current one, divided by six. *)
Definition netAverage (now : DateFields) (txns : list Transaction) : Q :=
  div (net (filter (Recent now) txns)) 6.

(** [t] is dated in one of the calendar months [months], given as pairs of
    a year and a month index. *)
Definition InMonths (months : list (Z * Z)) (t : Transaction) : Prop :=
  match date t with
  | ValidDate f => (fullYear f, monthIndex f) ∈ months
  | InvalidDate => False
  end.

#[global] Instance InMonths_dec months t : Decision (InMonths months t).
Proof. unfold InMonths. destruct (date t); apply _. Defined.

(** The net of the six calendar months that end with the current one,
    credits minus debits, divided by six. *)
Definition trailingNetAverage (now : DateFields) (txns : list Transaction) : Q :=
  ((Qsum (amount <$> filter (λ t, type t = credit ∧ InMonths (trailingMonths now) t) txns)
    - Qsum (amount <$> filter (λ t, type t = debit ∧ InMonths (trailingMonths now) t) txns))
   / 6)%Q.

(** [t] is dated in the current calendar month, in one of the six before
    it, or later. *)
Definition InWindow (now : DateFields) (t : Transaction) : Prop :=
  match date t with
  | ValidDate f => monthNumber now - 6 ≤ monthNumber f
  | InvalidDate => False
  end.

#[global] Instance InWindow_dec now t : Decision (InWindow now t).
Proof. unfold InWindow. destruct (date t); apply _. Defined.

(** A date of the calendar: a month index from 0 to 11, a day from 1 on
    and a time of day that is not negative. *)
Definition calendarDate (d : Date) : Prop :=
  match d with
  | ValidDate f => 0 ≤ monthIndex f ≤ 11 ∧ 1 ≤ dayOfMonth f ∧ 0 ≤ msOfDay f
  | InvalidDate => True
  end.

(** [Math.max(x, 0) || 3500]. *)
Definition orFallback (x : Q) : Q := if Qlt_le_dec 0 x then x else 3500%Q.

(** The pace of a goal: its target spread over its duration. *)
Definition targetPerMonth (targetAmount : Q) (durationMonths : option Z) : Q :=
  match durationMonths with
  | Some d => if decide (0 < d) then div targetAmount (inject_Z d) else 0%Q
  | None => 0%Q
  end.

(** The share of the savings a goal of this priority may claim. *)
Definition cap (priority : string) (savings : Q) : Z :=
  Math_round (mul (priorityWeight priority) savings).

(** The share of the savings a goal gets by its priority score. *)
Definition base (goals : list Goal) (g : Goal) (savings : Q) : Z :=
  Math_round (mul (div (inject_Z (priorityScore (priority g)))
                       (inject_Z (totalScore goals)))
                  savings).

(** What remains to be saved, spread over the duration. *)
Definition paceCap (g : Goal) : Z :=
  Math_round (div (Qmax 0 (sub (target_amount g) (current_amount g)))
                  (Qmax 1 (durationOr6 g))).

End GoalSpec64.

(** ** Ledgers and goals on which the rounding shows *)

Module Examples64.
Import JS BankContext.

(** A single credit of 35 in November 2025. *)
Definition credit35 : list Transaction :=
  [ mkTransaction "t1" "acc" (ValidDate (mkDate 2025 10 3 0)) credit
      "Employer" "bonus" 35 ].

(** A debit and three credits of November 2025 that cancel to the paisa,
    in two orders. *)
Definition rent : Transaction :=
  mkTransaction "t1" "acc" (ValidDate (mkDate 2025 10 1 0)) debit
    "Landlord" "rent" 1051.00.

Definition refunds : list Transaction :=
  [ mkTransaction "t2" "acc" (ValidDate (mkDate 2025 10 2 0)) credit
      "Shop" "shopping" 260.69;
    mkTransaction "t3" "acc" (ValidDate (mkDate 2025 10 3 0)) credit
      "Shop" "shopping" 379.20;
    mkTransaction "t4" "acc" (ValidDate (mkDate 2025 10 4 0)) credit
      "Shop" "shopping" 411.11 ].

Definition debitFirst : list Transaction := rent :: refunds.

Definition creditsFirst : list Transaction := refunds ++ [rent].

(** A credit of 600 on 2 May 2025 and a debit of 6 on 1 November 2025. *)
Definition lateSpring : list Transaction :=
  [ mkTransaction "t1" "acc" (ValidDate (mkDate 2025 4 2 0)) credit
      "Employer" "salary" 600;
    mkTransaction "t2" "acc" (ValidDate (mkDate 2025 10 1 0)) debit
      "Cafe" "dining" 6 ].

(** Credits on the last day of April, the first day of May and in December
    2025, and one that bears no valid date. *)
Definition aroundTheWindow : list Transaction :=
  [ mkTransaction "t1" "acc" (ValidDate (mkDate 2025 3 30 0)) credit
      "Employer" "salary" 6000;
    mkTransaction "t2" "acc" (ValidDate (mkDate 2025 4 1 0)) credit
      "Employer" "salary" 600;
    mkTransaction "t3" "acc" (ValidDate (mkDate 2025 11 24 0)) credit
      "Employer" "salary" 60;
    mkTransaction "t4" "acc" InvalidDate credit "Employer" "salary" 6 ].

(** A goal of high and a goal of medium priority. *)
Definition highMedium : list GoalsPage.Goal :=
  [ GoalsPage.mkGoal "g1" "Car" 100000 0 (Some 6%Q) None (Some "high");
    GoalsPage.mkGoal "g2" "Trip" 50000 0 (Some 6%Q) None (Some "medium") ].

(** The same goals as cards. *)
Definition highMediumCards : list GoalsView.GoalCard :=
  (λ g, GoalsView.mkGoalCard g None None None None) <$> highMedium.

End Examples64.

(** * Properties *)

(** ** Arithmetic of the primitives *)

Module JSFacts.
Import JS.

Lemma Math_round_comp (x y : Q) : (x == y)%Q -> Math_round x = Math_round y.
Proof. intros E. unfold Math_round. now rewrite E. Qed.

Lemma Math_round_mono (x y : Q) : (x <= y)%Q -> Math_round x <= Math_round y.
Proof. intros L. unfold Math_round. apply Qfloor_resp_le. lra. Qed.

Lemma Math_round_inject_Z (z : Z) : Math_round (inject_Z z) = z.
Proof.
  unfold Math_round.
  pose proof (Qfloor_le (inject_Z z + (1 # 2))) as Hlo.
  pose proof (Qlt_floor (inject_Z z + (1 # 2))) as Hhi.
  set (f := Qfloor (inject_Z z + (1 # 2))) in *.
  rewrite inject_Z_plus in Hhi. change (inject_Z 1) with 1%Q in Hhi.
  assert (inject_Z f < inject_Z z + 1)%Q as H1 by lra.
  assert (inject_Z z < inject_Z f + 1)%Q as H2 by lra.
  change 1%Q with (inject_Z 1) in H1, H2.
  rewrite <- inject_Z_plus in H1, H2.
  rewrite <- Zlt_Qlt in H1, H2. lia.
Qed.

Lemma Math_round_nonpos (x : Q) : (x <= 0)%Q -> Math_round x <= 0.
Proof.
  intros L. apply Math_round_mono in L. exact L.
Qed.

Lemma Math_round_nonneg (x : Q) : (0 <= x)%Q -> 0 <= Math_round x.
Proof.
  intros L. apply Math_round_mono in L. exact L.
Qed.

Lemma gtb_true (a b : Q) : gtb a b = true <-> (b < a)%Q.
Proof.
  unfold gtb. rewrite negb_true_iff.
  destruct (Qle_bool a b) eqn:E.
  - apply Qle_bool_iff in E. split; [discriminate | lra].
  - split; [intros _ | reflexivity].
    destruct (Qlt_le_dec b a) as [L | L]; [exact L |].
    apply Qle_bool_iff in L. congruence.
Qed.

Lemma gtb_false (a b : Q) : gtb a b = false <-> (a <= b)%Q.
Proof.
  unfold gtb. rewrite negb_false_iff. apply Qle_bool_iff.
Qed.

Lemma or_num_eq (x d : Q) : (x == 0)%Q -> or_num x d = d.
Proof. intros E. unfold or_num. apply Qeq_bool_iff in E. now rewrite E. Qed.

Lemma or_num_ne (x d : Q) : ~ (x == 0)%Q -> or_num x d = x.
Proof.
  intros E. unfold or_num. destruct (Qeq_bool x 0) eqn:B; [| reflexivity].
  apply Qeq_bool_iff in B. contradiction.
Qed.

(** [x || 0] is [x] as a number. *)
Lemma or_num_zero (x : Q) : (or_num x 0 == x)%Q.
Proof.
  unfold or_num. destruct (Qeq_bool x 0) eqn:B; [| reflexivity].
  apply Qeq_bool_iff in B. now rewrite B.
Qed.




End JSFacts.

(** ** The aggregate of [calculateFinancialData] *)

Module BankContextFacts.
Import JS JSFacts BankContext Spec Examples.

Lemma fold_left_amounts (txns : list Transaction) (a : Q) :
  (fold_left (fun sum t => sum + amount t) txns a == a + Qsum (amount <$> txns))%Q.
Proof.
  revert a. induction txns as [| t r IH]; intros a.
  - simpl. lra.
  - cbn [fold_left]. rewrite IH. rewrite fmap_cons. cbn [Qsum foldr].
    fold (Qsum (amount <$> r)). lra.
Qed.

Lemma sumAmounts_Qsum (txns : list Transaction) :
  (sumAmounts txns == Qsum (amount <$> txns))%Q.
Proof. unfold sumAmounts. rewrite fold_left_amounts. lra. Qed.

Lemma inMonth_DatedIn (m y : Z) (t : Transaction) :
  inMonth m y t = true <-> DatedIn m y t.
Proof.
  unfold inMonth, DatedIn, strict_eq, getMonth, getFullYear.
  destruct (date t) as [| f]; simpl.
  - split; [discriminate | intros [? _]; discriminate].
  - rewrite andb_true_iff, !Z.eqb_eq.
    split; [intros [-> ->]; split; reflexivity | intros [E1 E2]; split; congruence].
Qed.

Lemma isType_eq (k : TxnType) (t : Transaction) : isType k t = true <-> type t = k.
Proof.
  unfold isType. destruct (type t), k; simpl; split; congruence.
Qed.

(** A [filter] on a boolean test is stdpp's [filter] on the property the
    test decides. *)
Lemma filter_bool_Prop {A} (b : A -> bool) (P : A -> Prop) `{!∀ x, Decision (P x)}
    (l : list A) :
  (∀ x, b x = true <-> P x) -> List.filter b l = filter P l.
Proof.
  intros Hb. induction l as [| x l IH]; [reflexivity |].
  rewrite filter_cons. cbn [List.filter]. rewrite IH.
  destruct (b x) eqn:E.
  - rewrite decide_True; [reflexivity | now apply Hb].
  - rewrite decide_False; [reflexivity |]. rewrite <- Hb. congruence.
Qed.

Lemma filter_filter_bool {A} (b c : A -> bool) (l : list A) :
  List.filter b (List.filter c l) = List.filter (fun x => (b x && c x)%bool) l.
Proof.
  induction l as [| x l IH]; [reflexivity |].
  cbn [List.filter]. destruct (c x); cbn [List.filter]; rewrite ?IH.
  - now rewrite andb_true_r.
  - now rewrite andb_false_r.
Qed.

Lemma month_total (k : TxnType) (m y : Z) (txns : list Transaction) :
  (sumAmounts (List.filter (isType k) (List.filter (inMonth m y) txns))
   == monthTotal k m y txns)%Q.
Proof.
  rewrite sumAmounts_Qsum. unfold monthTotal.
  rewrite filter_filter_bool.
  rewrite (filter_bool_Prop _ (λ t, type t = k ∧ DatedIn m y t)); [reflexivity |].
  intros t. rewrite andb_true_iff, isType_eq, inMonth_DatedIn. reflexivity.
Qed.

Lemma dining_total (m y : Z) (txns : list Transaction) :
  (sumAmounts (List.filter isDiningDebit (List.filter (inMonth m y) txns))
   == diningTotal m y txns)%Q.
Proof.
  rewrite sumAmounts_Qsum. unfold diningTotal.
  rewrite filter_filter_bool.
  rewrite (filter_bool_Prop _ (λ t, type t = debit ∧ DatedIn m y t ∧ IsDining t));
    [reflexivity |].
  intros t. unfold isDiningDebit, IsDining.
  rewrite !andb_true_iff, isType_eq, inMonth_DatedIn. tauto.
Qed.

Lemma Qsum_nonneg (l : list Q) : Forall (fun q => 0 <= q)%Q l -> (0 <= Qsum l)%Q.
Proof.
  induction 1 as [| q l Hq _ IH]; cbn [Qsum foldr]; [lra |].
  fold (Qsum l). lra.
Qed.

(** The ledger is empty exactly when there is no aggregate. *)
Lemma calculateFinancialData_None (tl : Q -> string) (now : DateFields)
    (txns : list Transaction) :
  calculateFinancialData tl now txns = None <-> txns = [].
Proof.
  unfold calculateFinancialData. destruct txns as [| t r]; simpl.
  - split; reflexivity.
  - split; discriminate.
Qed.

Ltac calc_inv H :=
  unfold calculateFinancialData in H;
  match type of H with
  | (if ?c then _ else _) = _ => destruct c; [discriminate H |]
  end;
  injection H as <-;
  cbn [totalIncome totalExpenses totalSavings monthlyData categoryData insights].

(** The totals of a ledger of non-negative amounts are non-negative. *)
Lemma totals_nonneg (tl : Q -> string) (now : DateFields)
    (txns : list Transaction) (fd : FinancialData) :
  Forall (λ t, 0 <= amount t)%Q txns ->
  calculateFinancialData tl now txns = Some fd ->
  (0 <= totalIncome fd)%Q ∧ (0 <= totalExpenses fd)%Q.
Proof.
  intros Hall H. calc_inv H. rewrite !month_total. unfold monthTotal.
  split; apply Qsum_nonneg, Forall_fmap, Forall_forall; intros t Ht;
    apply list_elem_of_filter in Ht as [_ Ht];
    rewrite Forall_forall in Hall; apply (Hall t Ht).
Qed.

(** C1. The monthly aggregate of a non-empty ledger: [totalIncome] is the
    sum of the amounts of the credits of the current calendar month,
    [totalExpenses] the sum of the amounts of its debits, and
    [totalSavings] is [totalIncome - totalExpenses], whatever its sign. *)
Theorem C1_monthly_conservation (tl : Q -> string) (now : DateFields)
    (txns : list Transaction) :
  txns ≠ [] ->
  ∃ fd, calculateFinancialData tl now txns = Some fd
    ∧ (totalIncome fd == monthTotal credit (monthIndex now) (fullYear now) txns)%Q
    ∧ (totalExpenses fd == monthTotal debit (monthIndex now) (fullYear now) txns)%Q
    ∧ totalSavings fd = (totalIncome fd - totalExpenses fd)%Q.
Proof.
  intros Hne.
  destruct (calculateFinancialData tl now txns) as [fd |] eqn:H.
  - exists fd. split; [reflexivity |]. calc_inv H.
    split; [apply month_total |]. split; [apply month_total | reflexivity].
  - apply calculateFinancialData_None in H. contradiction.
Qed.

Lemma C1_monthly_conservation_witness :
  scenarioA ≠ []
  ∧ ∃ fd, calculateFinancialData enUS november2025 scenarioA = Some fd
      ∧ (totalIncome fd == monthTotal credit 10 2025 scenarioA)%Q
      ∧ (totalExpenses fd == monthTotal debit 10 2025 scenarioA)%Q
      ∧ totalSavings fd = (totalIncome fd - totalExpenses fd)%Q.
Proof.
  split; [discriminate |].
  apply (C1_monthly_conservation enUS november2025 scenarioA). discriminate.
Defined.

(** Scenario A: 45000 earned and 8200 spent in November 2025. *)
Example scenarioA_aggregate :
  ∃ fd, calculateFinancialData enUS november2025 scenarioA = Some fd
    ∧ totalIncome fd = 45000%Q ∧ totalExpenses fd = 8200%Q
    ∧ totalSavings fd = 36800%Q
    ∧ text <$> insights fd = ["Great job! You've saved ₹36,800 this month"].
Proof. eexists. split; [reflexivity |]. vm_compute. repeat split. Qed.

(** C5. An empty ledger has no aggregate at all ([null], not an aggregate
    of zeros) and hence no insights; the page then shows its empty state.
    Any other ledger has an aggregate, and the page shows the dashboard:
    the two cases cannot be confused. *)
Theorem C5_empty_ledger_no_data (tl : Q -> string) (now : DateFields) :
  calculateFinancialData tl now [] = None
  ∧ HomePage.HomePage tl (calculateFinancialData tl now []) [] = HomePage.NoDataAvailable
  ∧ (∀ txns, calculateFinancialData tl now txns = None <-> txns = [])
  ∧ (∀ txns, txns ≠ [] ->
       ∃ fd, calculateFinancialData tl now txns = Some fd
         ∧ HomePage.HomePage tl (Some fd) txns
           = HomePage.Dashboard (HomePage.budgetRules tl fd) (insights fd)).
Proof.
  split; [reflexivity |]. split; [reflexivity |].
  split; [intros txns; apply calculateFinancialData_None |].
  intros txns Hne.
  destruct (calculateFinancialData tl now txns) as [fd |] eqn:H.
  - exists fd. split; [reflexivity |].
    destruct txns as [| t r]; [contradiction | reflexivity].
  - apply calculateFinancialData_None in H. contradiction.
Qed.

Lemma C5_empty_ledger_no_data_witness :
  calculateFinancialData enUS november2025 [] = None
  ∧ scenarioA ≠ []
  ∧ ∃ fd, calculateFinancialData enUS november2025 scenarioA = Some fd
      ∧ HomePage.HomePage enUS (Some fd) scenarioA
        = HomePage.Dashboard (HomePage.budgetRules enUS fd) (insights fd).
Proof.
  destruct (C5_empty_ledger_no_data enUS november2025) as (H1 & _ & _ & H4).
  split; [exact H1 |]. split; [discriminate |]. apply H4. discriminate.
Defined.

(** A ledger with nothing in the current month still has an aggregate,
    all of whose totals are zero. *)
Example zero_valued_aggregate :
  ∃ fd, calculateFinancialData enUS november2025 julyCredit = Some fd
    ∧ totalIncome fd = 0%Q ∧ totalExpenses fd = 0%Q ∧ totalSavings fd = 0%Q
    ∧ insights fd = [].
Proof. eexists. split; [reflexivity |]. vm_compute. repeat split. Qed.



(** The overspent month: no savings insight, both warnings, in order. *)
Example overspent_insights :
  ∃ fd, calculateFinancialData enUS november2025 overspent = Some fd
    ∧ text <$> insights fd
      = [ "Your expenses are getting close to your income. Consider reviewing your budget.";
          "You've spent ₹6,500 on dining this month" ].
Proof. eexists. split; [reflexivity |]. vm_compute. reflexivity. Qed.

(** Month arithmetic of [new Date(year, month - i, 1)]: going back over
    January lands in the previous year. *)
Lemma Date_ym1_rollover (Y m i : Z) :
  ¬ (0 ≤ Y ≤ 99) -> 0 ≤ m ≤ 11 -> 0 ≤ i ≤ 11 ->
  Date_ym1 Y (m - i)
  = if i <=? m then mkDate Y (m - i) 1 0 else mkDate (Y - 1) (m - i + 12) 1 0.
Proof.
  intros HY Hm Hi. unfold Date_ym1.
  destruct ((0 <=? Y) && (Y <=? 99))%bool eqn:E.
  { apply andb_true_iff in E. lia. }
  destruct (i <=? m) eqn:L.
  - apply Z.leb_le in L.
    rewrite Z.div_small, Z.mod_small by lia. f_equal. lia.
  - apply Z.leb_gt in L.
    assert ((m - i) / 12 = -1) as -> by (Z.to_euclidean_division_equations; lia).
    assert ((m - i) mod 12 = m - i + 12) as -> by (Z.to_euclidean_division_equations; lia).
    reflexivity.
Qed.

Lemma monthEntry_entryOf (txns : list Transaction) (Y m i y' m' : Z) :
  Date_ym1 Y (m - i) = mkDate y' m' 1 0 ->
  entryOf txns (monthEntry txns Y m i) (y', m').
Proof.
  intros E. unfold monthEntry, entryOf. rewrite E. cbn.
  split; [reflexivity |]. split; apply month_total.
Qed.

(** The trailing window from any anchor: the six calendar months that end
    with the current one, oldest first, across year boundaries. *)
Lemma monthlyData_trailing (tl : Q -> string) (now : DateFields)
    (txns : list Transaction) (fd : FinancialData) :
  ¬ (0 ≤ fullYear now ≤ 99) ->
  calculateFinancialData tl now txns = Some fd ->
  Forall2 (entryOf txns) (monthlyData fd) (trailingMonths now).
Proof.
  intros HY H. calc_inv H. unfold trailingMonths. cbn [map fmap list_fmap].
  assert (∀ i, Date_ym1 (fullYear now) (monthIndex now - i)
               = mkDate (monthOf (monthNumber now - i)).1
                        (monthOf (monthNumber now - i)).2 1 0) as Hd.
  { intros i. unfold Date_ym1, monthOf, monthNumber. cbn [fst snd].
    destruct ((0 <=? fullYear now) && (fullYear now <=? 99))%bool eqn:E.
    { apply andb_true_iff in E. lia. }
    f_equal; Z.to_euclidean_division_equations; lia. }
  repeat (constructor;
          [match goal with
           | |- entryOf _ _ ?p => rewrite (surjective_pairing p)
           end; apply monthEntry_entryOf, Hd |]).
  constructor.
Qed.

(** C4, as the code has it. Anchored at January of year [Y], the trailing
    window has six entries, oldest first: August to December of year
    [Y - 1], then January of year [Y]; each holds the income and the
    expense of its calendar month. *)
Theorem C4_trailing_window_january (tl : Q -> string) (now : DateFields)
    (txns : list Transaction) (fd : FinancialData) (Y : Z) :
  ¬ (0 ≤ Y ≤ 99) -> fullYear now = Y -> monthIndex now = 0 ->
  calculateFinancialData tl now txns = Some fd ->
  Forall2 (entryOf txns) (monthlyData fd) (trailingMonths_january Y).
Proof.
  intros HY Ey Em H. calc_inv H. rewrite Ey, Em.
  unfold trailingMonths_january. cbn [map].
  repeat (constructor;
          [apply monthEntry_entryOf; rewrite Date_ym1_rollover by lia; reflexivity |]).
  constructor.
Qed.

Lemma C4_trailing_window_january_witness :
  ¬ (0 ≤ 2025 ≤ 99) ∧ fullYear january2025 = 2025 ∧ monthIndex january2025 = 0
  ∧ ∃ fd, calculateFinancialData enUS january2025 julyCredit = Some fd
      ∧ Forall2 (entryOf julyCredit) (monthlyData fd) (trailingMonths_january 2025).
Proof.
  split; [lia |]. split; [reflexivity |]. split; [reflexivity |].
  eexists. split; [reflexivity |].
  apply (C4_trailing_window_january enUS january2025 julyCredit _ 2025);
    [lia | reflexivity | reflexivity | reflexivity].
Defined.

(** Against C4 as stated: anchored at January 2025, the window starts in
    August 2024. It has six entries, none of them for July, and the credit
    of July 2024 is in none of them. *)
Lemma C4_counterexample :
  ∃ fd, calculateFinancialData enUS january2025 julyCredit = Some fd
    ∧ month <$> monthlyData fd = ["Aug"; "Sep"; "Oct"; "Nov"; "Dec"; "Jan"]
    ∧ Forall (λ e, income e = 0%Q ∧ expense e = 0%Q) (monthlyData fd)
    ∧ ¬ Forall2 (entryOf julyCredit) (monthlyData fd) (trailingMonths_claimed 2025).
Proof.
  eexists. split; [reflexivity |].
  split; [vm_compute; reflexivity |].
  split; [vm_compute; repeat constructor |].
  intros H. apply Forall2_length in H. vm_compute in H. discriminate H.
Qed.

End BankContextFacts.

(** ** The goal computations of [GoalsPage] *)

Module GoalsPageFacts.
Import JS JSFacts BankContext GoalsPage Spec GoalSpec Examples BankContextFacts.

Lemma Qmin_comp (a a' b b' : Q) :
  (a == a')%Q -> (b == b')%Q -> (Qmin a b == Qmin a' b')%Q.
Proof.
  intros Ea Eb.
  destruct (Q.min_spec a b) as [[? ->] | [? ->]];
    destruct (Q.min_spec a' b') as [[? ->] | [? ->]]; lra.
Qed.

(** The window of the baseline: the current calendar month, the six
    before it, and whatever is dated later. *)
Lemma Recent_monthNumber (now f : DateFields) (t : Transaction) :
  ¬ (0 ≤ fullYear now ≤ 99) -> 0 ≤ monthIndex now ≤ 11 ->
  0 ≤ monthIndex f ≤ 11 -> 1 ≤ dayOfMonth f -> 0 ≤ msOfDay f ->
  date t = ValidDate f ->
  Recent now t <-> monthNumber now - 6 ≤ monthNumber f.
Proof.
  intros HY Hm Hf Hd Hms Et. unfold Recent, sixMonthsAgo. rewrite Et.
  rewrite (Date_ym1_rollover _ _ 6) by lia.
  unfold monthNumber, Date_geb, fields_geb.
  destruct (6 <=? monthIndex now) eqn:L;
    [apply Z.leb_le in L | apply Z.leb_gt in L]; cbn [fullYear monthIndex dayOfMonth msOfDay];
    repeat match goal with
           | |- context [?a =? ?b] => destruct (Z.eqb_spec a b)
           end;
    rewrite ?Z.leb_le, ?Z.ltb_lt; lia.
Qed.

(** *** The monthly contribution of a goal *)

Lemma priorityWeight_cases (priority : string) :
  priorityWeight priority = 0.6%Q ∨ priorityWeight priority = 0.25%Q
  ∨ priorityWeight priority = 0.4%Q.
Proof.
  unfold priorityWeight.
  destruct (String.eqb _ "high"); [now left |].
  destruct (String.eqb _ "low"); [right; now left | right; now right].
Qed.

Lemma cap_nonneg (priority : string) (savings : Q) :
  (0 <= savings)%Q -> 0 ≤ cap priority savings.
Proof.
  intros Hs. unfold cap. apply Math_round_nonneg.
  destruct (priorityWeight_cases priority) as [-> | [-> | ->]]; lra.
Qed.



Example scenarioC_contribution :
  handleAddGoal_monthly_contribution Examples.parseFloat Examples.parseInt scenarioC 3500
  = 2100.
Proof. reflexivity. Qed.

Lemma contribution_zero (x y : Q) :
  (x <= 0)%Q -> Z.max 0 (Math_round (Qmin x y)) = 0.
Proof.
  intros Hx.
  assert (Math_round (Qmin x y) ≤ 0).
  { apply Math_round_nonpos. pose proof (Q.le_min_l x y). lra. }
  lia.
Qed.

(** A target that is not a number gives no contribution either. *)
Lemma monthlyContribution_NaN (dm : option Z) (priority : string) (savings : Q) :
  monthlyContribution None dm priority savings = 0.
Proof.
  unfold monthlyContribution. apply contribution_zero.
  destruct dm as [d |]; [destruct (0 <? d) |]; cbn [or_nan];
    rewrite ?or_num_zero; lra.
Qed.

Lemma monthlyContribution_no_duration (ta : option Q) (dm : option Z)
    (priority : string) (savings : Q) :
  (∀ d, dm = Some d -> d ≤ 0) -> monthlyContribution ta dm priority savings = 0.
Proof.
  intros Hd. unfold monthlyContribution. apply contribution_zero.
  destruct dm as [d |].
  - destruct (Z.ltb_spec 0 d).
    + specialize (Hd d eq_refl). lia.
    + cbn [or_nan]. rewrite or_num_zero. lra.
  - cbn [or_nan]. rewrite or_num_zero. lra.
Qed.

(** C8. A goal whose duration is absent (the field left empty) or zero
    gets the contribution 0, whatever its priority, its target and the
    savings baseline. *)
Theorem C8_no_duration_no_contribution (parseFloat : string -> option Q)
    (parseInt : string -> option Z) (newGoal : Form.NewGoalForm) (savings : Q) :
  parseInt "0" = Some 0 ->
  Form.duration_months newGoal = "" ∨ parseInt (Form.duration_months newGoal) = Some 0 ->
  handleAddGoal_monthly_contribution parseFloat parseInt newGoal savings = 0.
Proof.
  intros H0 Hd. unfold handleAddGoal_monthly_contribution.
  apply monthlyContribution_no_duration. intros d E.
  destruct Hd as [Hd | Hd].
  - rewrite Hd in E. cbn [or_str] in E. rewrite H0 in E. injection E as <-. lia.
  - destruct (Form.duration_months newGoal) as [| c r] eqn:Es; cbn [or_str] in E.
    + rewrite H0 in E. injection E as <-. lia.
    + rewrite Hd in E. injection E as <-. lia.
Qed.

Lemma C8_no_duration_no_contribution_witness :
  Examples.parseInt "0" = Some 0
  ∧ Form.duration_months scenarioD = ""
  ∧ handleAddGoal_monthly_contribution Examples.parseFloat Examples.parseInt scenarioD 3500
    = 0.
Proof.
  split; [reflexivity |]. split; [reflexivity |].
  apply (C8_no_duration_no_contribution Examples.parseFloat Examples.parseInt scenarioD 3500);
    [reflexivity | left; reflexivity].
Defined.

(** *** The rebalance *)

Lemma map_fmap {A B} (f : A -> B) (l : list A) : map f l = f <$> l.
Proof. induction l as [| x l IH]; [reflexivity |]. cbn. now rewrite IH. Qed.

Lemma weightOf_priorityScore (p : option string) : weightOf p = priorityScore p.
Proof.
  unfold weightOf, priorityScore. destruct p as [s |]; [| reflexivity].
  cbn [or_undef].
  assert (toLowerCase (or_str s "") = toLowerCase s) as -> by now destruct s.
  destruct (String.eqb_spec (toLowerCase s) "high"); case_decide; try congruence.
  destruct (String.eqb_spec (toLowerCase s) "medium"); case_decide; congruence.
Qed.

Lemma priorityScore_pos (p : option string) : 1 ≤ priorityScore p.
Proof. unfold priorityScore. destruct p; repeat case_decide; lia. Qed.

Lemma fold_left_add (l : list Z) (a : Z) :
  fold_left Z.add l a = a + foldr Z.add 0 l.
Proof.
  revert a. induction l as [| x l IH]; intros a; cbn; [lia |]. rewrite IH. lia.
Qed.

Lemma totalScore_pos (goals : list Goal) : goals ≠ [] -> 1 ≤ totalScore goals.
Proof.
  destruct goals as [| g r]; [contradiction |]. intros _. cbn [totalScore foldr].
  pose proof (priorityScore_pos (priority g)).
  assert (0 ≤ totalScore r); [| unfold totalScore in *; lia].
  induction r as [| g' r IH]; cbn; [lia |].
  pose proof (priorityScore_pos (priority g')). unfold totalScore in IH. lia.
Qed.

Lemma sumWeights_totalScore (goals : list Goal) :
  goals ≠ [] ->
  sumWeights (map (fun g => weightOf (priority g)) goals) = totalScore goals.
Proof.
  intros Hne. unfold sumWeights. rewrite fold_left_add.
  assert (foldr Z.add 0 (map (fun g => weightOf (priority g)) goals) = totalScore goals)
    as ->.
  { unfold totalScore. clear Hne. induction goals as [| g r IH]; [reflexivity |].
    cbn. rewrite IH, weightOf_priorityScore. reflexivity. }
  pose proof (totalScore_pos goals Hne).
  destruct (Z.eqb_spec (0 + totalScore goals) 0); lia.
Qed.

Lemma or_nan_durationOr6 (g : Goal) : or_nan (duration_months g) 6 = durationOr6 g.
Proof.
  unfold durationOr6, or_nan, or_num. destruct (duration_months g) as [d |]; [| reflexivity].
  destruct (Qeq_dec d 0) as [E | E].
  - apply Qeq_bool_iff in E. now rewrite E.
  - destruct (Qeq_bool d 0) eqn:B; [| reflexivity].
    apply Qeq_bool_iff in B. contradiction.
Qed.

(** The body of the loop computes the allocation the specification
    describes. *)
Lemma allocationOf_formula (goals : list Goal) (savings : Q) (i : nat) (g : Goal) :
  goals !! i = Some g ->
  allocationOf (map (fun g => weightOf (priority g)) goals)
               (sumWeights (map (fun g => weightOf (priority g)) goals)) savings i g
  = Z.max 0 (Z.min (base goals g savings) (paceCap g)).
Proof.
  intros Hi. unfold allocationOf, base, paceCap.
  assert (goals ≠ []) as Hne by (intros ->; discriminate Hi).
  rewrite (sumWeights_totalScore goals Hne).
  rewrite map_fmap, list_lookup_fmap, Hi. cbn [fmap option_fmap option_map default].
  rewrite weightOf_priorityScore, or_nan_durationOr6. reflexivity.
Qed.

(** Writing the allocations of a list of goals into the record, one key
    after the other: the last write to a key is the one that stays. *)
Section Writes.
Variable f : nat -> Goal -> Z.

Lemma writes_other (l : list (nat * Goal)) (acc : gmap string Z) (k : string) :
  (∀ p, p ∈ l -> id p.2 ≠ k) -> fold_left (write f) l acc !! k = acc !! k.
Proof.
  revert acc. induction l as [| [i g] l IH]; intros acc Hl; [reflexivity |].
  cbn [fold_left write]. rewrite IH.
  - apply lookup_insert_ne. apply (Hl (i, g)). left.
  - intros p Hp. apply Hl. now right.
Qed.

Lemma writes_last (l : list (nat * Goal)) (acc : gmap string Z)
    (n i : nat) (g : Goal) :
  l !! n = Some (i, g) ->
  (∀ m p, (n < m)%nat -> l !! m = Some p -> id p.2 ≠ id g) ->
  fold_left (write f) l acc !! id g = Some (f i g).
Proof.
  intros Hn Hlater.
  rewrite <- (take_drop_middle l n (i, g) Hn), fold_left_app.
  cbn [fold_left write]. rewrite writes_other; [apply lookup_insert_eq |].
  intros p Hp. apply list_elem_of_lookup in Hp as [j Hj].
  rewrite lookup_drop in Hj. apply (Hlater (S n + j)%nat p); [lia | exact Hj].
Qed.
End Writes.

Lemma computeRebalanceAllocations_writes (goals : list Goal) (savings : Q) :
  goals ≠ [] ->
  computeRebalanceAllocations goals savings
  = fold_left
      (write (allocationOf (map (fun g => weightOf (priority g)) goals)
                           (sumWeights (map (fun g => weightOf (priority g)) goals))
                           savings))
      (imap pair goals) ∅.
Proof.
  intros Hne. unfold computeRebalanceAllocations.
  destruct goals as [| g r]; [contradiction | reflexivity].
Qed.

(** The entry of a goal in the record, when no later goal bears its id. *)
Lemma rebalance_lookup (goals : list Goal) (savings : Q) (i : nat) (g : Goal) :
  goals !! i = Some g ->
  (∀ j g', (i < j)%nat -> goals !! j = Some g' -> id g' ≠ id g) ->
  computeRebalanceAllocations goals savings !! id g
  = Some (Z.max 0 (Z.min (base goals g savings) (paceCap g))).
Proof.
  intros Hi Hlater.
  assert (goals ≠ []) as Hne by (intros ->; discriminate Hi).
  rewrite (computeRebalanceAllocations_writes goals savings Hne).
  rewrite (writes_last _ _ _ i i g).
  - f_equal. apply allocationOf_formula, Hi.
  - rewrite list_lookup_imap, Hi. reflexivity.
  - intros m [j g'] Hm Hp. rewrite list_lookup_imap in Hp.
    destruct (goals !! m) as [g'' |] eqn:Eg; [| discriminate Hp].
    injection Hp as <- <-. apply (Hlater m g'' Hm Eg).
Qed.

Lemma NoDup_ids_later (goals : list Goal) (i j : nat) (g g' : Goal) :
  NoDup (id <$> goals) -> goals !! i = Some g -> goals !! j = Some g' ->
  (i < j)%nat -> id g' ≠ id g.
Proof.
  intros Hnd Hi Hj Hlt E.
  assert (i = j); [| lia].
  apply (NoDup_lookup (id <$> goals) i j (id g) Hnd);
    rewrite list_lookup_fmap; [rewrite Hi | rewrite Hj; cbn; rewrite E]; reflexivity.
Qed.

(** Two goals that bear the same id share one entry, that of the later. *)
Example rebalance_same_id :
  map_to_list
    (computeRebalanceAllocations
       [ mkGoal "g" "Car" 100000 0 (Some 6%Q) None (Some "high");
         mkGoal "g" "Phone" 3000 600 None None (Some "low") ] 4000)
  = [("g", 400)].
Proof. vm_compute. reflexivity. Qed.

(** With no goals there is nothing to allocate. *)
Example rebalance_empty (savings : Q) : computeRebalanceAllocations [] savings = ∅.
Proof. reflexivity. Qed.

(** Scenario E: the shares of 4000 are 3000 and 1000; the second goal is
    held back by its pace cap. *)
Example scenarioE_allocations :
  base scenarioE (mkGoal "g1" "Car" 100000 0 (Some 6%Q) None (Some "high")) 4000 = 3000
  ∧ base scenarioE (mkGoal "g2" "Phone" 3000 600 None None (Some "low")) 4000 = 1000
  ∧ computeRebalanceAllocations scenarioE 4000 !! "g1" = Some 3000
  ∧ computeRebalanceAllocations scenarioE 4000 !! "g2" = Some 400.
Proof. vm_compute. repeat split. Qed.

(** C7. The rebalance does not keep within the savings: three goals of
    high priority share 3500 into three allocations of 1167, 3501 in
    all. *)
Theorem C7_rebalance_may_exceed_savings :
  ∃ (goals : list Goal) (savings : Q),
    (0 <= savings)%Q
    ∧ NoDup (id <$> goals)
    ∧ (savings < inject_Z (totalAllocated (computeRebalanceAllocations goals savings)))%Q.
Proof.
  exists threeHigh, 3500%Q.
  split; [discriminate |].
  split; [apply (bool_decide_unpack _); vm_compute; reflexivity |].
  vm_compute. reflexivity.
Qed.

Example threeHigh_allocations :
  map_to_list (computeRebalanceAllocations threeHigh 3500)
  ≡ₚ [("g1", 1167); ("g2", 1167); ("g3", 1167)]
  ∧ totalAllocated (computeRebalanceAllocations threeHigh 3500) = 3501.
Proof.
  split; [| vm_compute; reflexivity].
  apply (bool_decide_unpack _). vm_compute. reflexivity.
Qed.

End GoalsPageFacts.

(** ** The budget rules of the home page *)

Module HomePageFacts.
Import JS JSFacts BankContext HomePage Spec GoalSpec Examples BankContextFacts.

(** The guard of the division: the denominator is at least 1. *)
Lemma denominator_guard (allocatedTarget : Q) : (1 <= Qmax allocatedTarget 1)%Q.
Proof. apply Q.le_max_r. Qed.

Lemma progressPercentage_le (consumed allocatedTarget : Q) :
  (progressPercentage consumed allocatedTarget <= 100)%Q.
Proof. apply Q.le_min_r. Qed.

Lemma progressPercentage_nonneg (consumed allocatedTarget : Q) :
  (0 <= consumed)%Q -> (0 <= progressPercentage consumed allocatedTarget)%Q.
Proof.
  intros Hc. unfold progressPercentage.
  pose proof (denominator_guard allocatedTarget) as Hd.
  assert (0 <= consumed / Qmax allocatedTarget 1)%Q as Hq
    by (apply Qle_shift_div_l; lra).
  apply Q.min_glb; lra.
Qed.

Lemma progressPercentage_neg (consumed allocatedTarget : Q) :
  (consumed < 0)%Q -> (progressPercentage consumed allocatedTarget < 0)%Q.
Proof.
  intros Hc. unfold progressPercentage.
  pose proof (denominator_guard allocatedTarget) as Hd.
  assert (consumed / Qmax allocatedTarget 1 < 0)%Q as Hq
    by (apply Qlt_shift_div_r; lra).
  pose proof (Q.le_min_l (consumed / Qmax allocatedTarget 1 * 100) 100). lra.
Qed.

Lemma Progress_bounds (value : Q) : (0 <= Progress value)%Q ∧ (Progress value <= 100)%Q.
Proof.
  unfold Progress. split; [apply Q.le_max_l |].
  apply Q.max_lub; [lra | apply Q.le_min_l].
Qed.

(** C6, as the code has it. Each bucket's value is
    [min(consumed / max(allocatedTarget, 1) * 100, 100)]; the denominator is
    at least 1, so the division is always defined; every value is at most
    100. With non-negative expenses the values of the needs and wants
    buckets are at least 0; the value of the savings bucket has the sign of
    [totalSavings], so it is negative in a month that spends more than it
    earns. The bar drawn from a value is clamped to the range 0 to 100. *)
Theorem C6_budget_progress (tl : Q -> string) (fd : FinancialData) :
  (0 <= totalExpenses fd)%Q ->
  value <$> budgetRules tl fd
  = [ progressPercentage (totalExpenses fd * 0.5) (totalIncome fd * 0.5);
      progressPercentage (totalExpenses fd * 0.3) (totalIncome fd * 0.3);
      progressPercentage (totalSavings fd) (totalIncome fd * 0.2) ]
  ∧ (1 <= Qmax (totalIncome fd * 0.5) 1)%Q
  ∧ (1 <= Qmax (totalIncome fd * 0.3) 1)%Q
  ∧ (1 <= Qmax (totalIncome fd * 0.2) 1)%Q
  ∧ Forall (λ r, (value r <= 100)%Q
                 ∧ (0 <= Progress (value r))%Q ∧ (Progress (value r) <= 100)%Q)
           (budgetRules tl fd)
  ∧ (0 <= progressPercentage (totalExpenses fd * 0.5) (totalIncome fd * 0.5))%Q
  ∧ (0 <= progressPercentage (totalExpenses fd * 0.3) (totalIncome fd * 0.3))%Q
  ∧ ((0 <= totalSavings fd)%Q ->
     (0 <= progressPercentage (totalSavings fd) (totalIncome fd * 0.2))%Q)
  ∧ ((totalSavings fd < 0)%Q ->
     (progressPercentage (totalSavings fd) (totalIncome fd * 0.2) < 0)%Q).
Proof.
  intros He.
  split; [reflexivity |].
  do 3 (split; [apply denominator_guard |]).
  split.
  { unfold budgetRules.
    repeat (constructor;
            [split; [apply progressPercentage_le | apply Progress_bounds] |]).
    constructor. }
  split; [apply progressPercentage_nonneg; lra |].
  split; [apply progressPercentage_nonneg; lra |].
  split; [apply progressPercentage_nonneg | apply progressPercentage_neg].
Qed.

Lemma C6_budget_progress_witness :
  ∃ fd, calculateFinancialData enUS november2025 overspent = Some fd
    ∧ (0 <= totalExpenses fd)%Q
    ∧ (totalSavings fd < 0)%Q
    ∧ (progressPercentage (totalSavings fd) (totalIncome fd * 0.2) < 0)%Q
    ∧ Forall (λ r, (value r <= 100)%Q
                   ∧ (0 <= Progress (value r))%Q ∧ (Progress (value r) <= 100)%Q)
             (budgetRules enUS fd).
Proof.
  eexists. split; [reflexivity |].
  split; [vm_compute; discriminate |]. split; [reflexivity |].
  match goal with
  | |- context [budgetRules _ ?fd] =>
      destruct (C6_budget_progress enUS fd) as (_ & _ & _ & _ & Hall & _ & _ & _ & Hneg)
  end.
  - vm_compute. discriminate.
  - split; [apply Hneg; reflexivity | exact Hall].
Defined.

(** Against C6 as stated: in a month with 100 spent and nothing earned the
    savings bucket has the value -10000, which is not within 0 and 100. *)
Lemma C6_counterexample :
  ∃ fd r, calculateFinancialData enUS november2025 onlyDebit = Some fd
    ∧ totalIncome fd = 0%Q ∧ totalSavings fd = (-100)%Q
    ∧ r ∈ budgetRules enUS fd
    ∧ label r = "Savings (20%)"
    ∧ (value r == -10000)%Q
    ∧ ¬ (0 <= value r ∧ value r <= 100)%Q.
Proof.
  eexists. eexists. split; [reflexivity |].
  split; [reflexivity |]. split; [reflexivity |].
  split; [apply list_elem_of_lookup; exists 2%nat; reflexivity |].
  split; [reflexivity |]. split; [reflexivity |].
  intros [H _]. vm_compute in H. apply H. reflexivity.
Qed.

End HomePageFacts.

(** ** More on the contribution and the rebalance *)

Module GoalsPageMore.
Import JS JSFacts BankContext GoalsPage Spec GoalSpec Examples MoreExamples
       BankContextFacts GoalsPageFacts.

Lemma priorityWeight_nonneg (priority : string) : (0 <= priorityWeight priority)%Q.
Proof. destruct (priorityWeight_cases priority) as [-> | [-> | ->]]; lra. Qed.

Lemma Qmin_le_compat (a b b' : Q) : (b <= b')%Q -> (Qmin a b <= Qmin a b')%Q.
Proof.
  intros Hb.
  destruct (Q.min_spec a b) as [[? ->] | [? ->]];
    destruct (Q.min_spec a b') as [[? ->] | [? ->]]; lra.
Qed.

(** A target that is not a number gives the contribution 0, whatever the
    duration, the priority and the savings. *)
Theorem contribution_unparsed_target (parseFloat : string -> option Q)
    (parseInt : string -> option Z) (newGoal : Form.NewGoalForm) (savings : Q) :
  parseFloat (or_str (Form.target_amount newGoal) "0") = None ->
  handleAddGoal_monthly_contribution parseFloat parseInt newGoal savings = 0.
Proof.
  intros E. unfold handleAddGoal_monthly_contribution. rewrite E.
  apply monthlyContribution_NaN.
Qed.

Lemma contribution_unparsed_target_witness :
  Examples.parseFloat (or_str (Form.target_amount noTarget) "0") = None
  ∧ handleAddGoal_monthly_contribution Examples.parseFloat Examples.parseInt noTarget 3500
    = 0.
Proof.
  split; [reflexivity |].
  apply (contribution_unparsed_target Examples.parseFloat Examples.parseInt noTarget 3500).
  reflexivity.
Defined.

(** More savings never lower the contribution of a goal. *)
Theorem contribution_monotone (parseFloat : string -> option Q)
    (parseInt : string -> option Z) (newGoal : Form.NewGoalForm) (s1 s2 : Q) :
  (s1 <= s2)%Q ->
  handleAddGoal_monthly_contribution parseFloat parseInt newGoal s1
  ≤ handleAddGoal_monthly_contribution parseFloat parseInt newGoal s2.
Proof.
  intros Hs. unfold handleAddGoal_monthly_contribution, monthlyContribution.
  apply Z.max_le_compat_l, Math_round_mono.
  rewrite !or_num_zero. apply Qmin_le_compat.
  rewrite <- Zle_Qle. apply Math_round_mono.
  pose proof (priorityWeight_nonneg (Form.priority newGoal)). nra.
Qed.

Lemma contribution_monotone_witness :
  (1000 <= 3500)%Q
  ∧ handleAddGoal_monthly_contribution Examples.parseFloat Examples.parseInt scenarioC 1000
    ≤ handleAddGoal_monthly_contribution Examples.parseFloat Examples.parseInt scenarioC 3500.
Proof.
  split; [discriminate |].
  apply (contribution_monotone Examples.parseFloat Examples.parseInt scenarioC 1000 3500).
  discriminate.
Defined.

(** *** Bounds of the rebalance *)


Lemma paceCap_reached (g : Goal) :
  (target_amount g <= current_amount g)%Q -> paceCap g = 0.
Proof.
  intros H. unfold paceCap.
  assert (Qmax 0 (target_amount g - current_amount g) == 0)%Q as E
    by (apply Q.max_l; lra).
  rewrite (Math_round_comp _ 0); [reflexivity |].
  rewrite E. pose proof (Q.le_max_l 1 (durationOr6 g)). field. lra.
Qed.


(** A goal that has reached its target is allocated nothing. *)
Theorem rebalance_reached_goal (goals : list Goal) (savings : Q) (i : nat) (g : Goal) :
  goals !! i = Some g ->
  NoDup (id <$> goals) ->
  (target_amount g <= current_amount g)%Q ->
  computeRebalanceAllocations goals savings !! id g = Some 0.
Proof.
  intros Hi Hnd Hr.
  rewrite (rebalance_lookup goals savings i g Hi).
  - rewrite (paceCap_reached g Hr). f_equal. lia.
  - intros j g' Hlt Hj. apply (NoDup_ids_later goals i j g g' Hnd Hi Hj Hlt).
Qed.

Lemma rebalance_reached_goal_witness :
  reachedAndPending !! 0%nat = Some reached
  ∧ NoDup (id <$> reachedAndPending)
  ∧ (target_amount reached <= current_amount reached)%Q
  ∧ computeRebalanceAllocations reachedAndPending 4000 !! "g1" = Some 0.
Proof.
  assert (NoDup (id <$> reachedAndPending)) as Hnd
    by (apply (bool_decide_unpack _); vm_compute; reflexivity).
  split; [reflexivity |]. split; [exact Hnd |]. split; [discriminate |].
  apply (rebalance_reached_goal reachedAndPending 4000 0 reached);
    [reflexivity | exact Hnd | discriminate].
Defined.



(** *** How far the rebalance can exceed the savings *)

Lemma totalAllocated_writes (f : nat -> Goal -> Z) (l : list (nat * Goal))
    (acc : gmap string Z) :
  NoDup ((λ p, id p.2) <$> l) ->
  (∀ p, p ∈ l -> acc !! id p.2 = None) ->
  totalAllocated (fold_left (write f) l acc)
  = totalAllocated acc + foldr Z.add 0 ((λ p, f p.1 p.2) <$> l).
Proof.
  revert acc. induction l as [| [i g] l IH]; intros acc Hnd Hfresh.
  - cbn. lia.
  - rewrite fmap_cons in Hnd. apply NoDup_cons in Hnd as [Hg Hnd].
    cbn [fold_left write]. rewrite IH; [| exact Hnd |].
    + unfold totalAllocated. rewrite map_fold_insert_L.
      * rewrite fmap_cons. cbn. lia.
      * intros. lia.
      * apply (Hfresh (i, g)). left.
    + intros p Hp. rewrite lookup_insert_ne.
      * apply Hfresh. now right.
      * intros E. apply Hg. apply list_elem_of_fmap. exists p.
        split; [exact E | exact Hp].
Qed.

Lemma Math_round_le_half (x : Q) : (inject_Z (Math_round x) <= x + (1 # 2))%Q.
Proof. unfold Math_round. apply Qfloor_le. Qed.

Lemma allocations_sum_bound (W : Z) (a : Q) (l : list Goal) :
  0 < W -> (0 <= a)%Q ->
  (inject_Z (foldr Z.add 0%Z
               ((λ g, Z.max 0 (Z.min (Math_round (inject_Z (priorityScore (priority g))
                                                   / inject_Z W * a))
                                     (paceCap g))) <$> l))
   <= inject_Z (totalScore l) / inject_Z W * a
      + inject_Z (Z.of_nat (length l)) / 2)%Q.
Proof.
  intros HW Ha.
  assert (0 < inject_Z W)%Q as HWq
    by (change 0%Q with (inject_Z 0); rewrite <- Zlt_Qlt; exact HW).
  induction l as [| g l IH].
  - change (0 <= 0 / inject_Z W * a + 0 / 2)%Q.
    unfold Qdiv. rewrite !Qmult_0_l. lra.
  - rewrite fmap_cons. unfold totalScore in *. cbn [foldr length].
    rewrite Nat2Z.inj_succ. unfold Z.succ. rewrite !inject_Z_plus.
    set (b := Math_round (inject_Z (priorityScore (priority g)) / inject_Z W * a)).
    pose proof (Math_round_le_half
                  (inject_Z (priorityScore (priority g)) / inject_Z W * a)) as Hb.
    fold b in Hb.
    assert (0 ≤ b) as Hb0.
    { apply Math_round_nonneg. pose proof (priorityScore_pos (priority g)) as Hp.
      apply Qmult_le_0_compat; [| exact Ha].
      apply Qle_shift_div_l; [exact HWq |]. rewrite Qmult_0_l.
      change 0%Q with (inject_Z 0). rewrite <- Zle_Qle. lia. }
    assert (inject_Z (Z.max 0 (Z.min b (paceCap g))) <= inject_Z b)%Q as Hx
      by (rewrite <- Zle_Qle; lia).
    assert ((inject_Z (priorityScore (priority g))
             + inject_Z (totalScore l))
            / inject_Z W * a
            == inject_Z (priorityScore (priority g)) / inject_Z W * a
               + inject_Z (totalScore l) / inject_Z W * a)%Q as E by (field; lra).
    fold (totalScore l) in *. rewrite E. change (inject_Z 1) with 1%Q.
    assert ((inject_Z (Z.of_nat (length l)) + 1) / 2
            == inject_Z (Z.of_nat (length l)) / 2 + (1 # 2))%Q as E2 by field.
    rewrite E2. lra.
Qed.

(** The rebalance can exceed the savings by rounding only: the allocations
    sum to at most the savings plus half a unit per goal. *)
Theorem rebalance_total_bound (goals : list Goal) (savings : Q) :
  NoDup (id <$> goals) ->
  (0 <= savings)%Q ->
  (inject_Z (totalAllocated (computeRebalanceAllocations goals savings))
   <= savings + inject_Z (Z.of_nat (length goals)) / 2)%Q.
Proof.
  intros Hnd Hs.
  destruct goals as [| g0 r] eqn:Eg.
  { unfold computeRebalanceAllocations, totalAllocated. cbn [length Nat.eqb].
    rewrite map_fold_empty. change (0 <= savings + 0 / 2)%Q.
    assert (0 / 2 == 0)%Q as -> by reflexivity. lra. }
  rewrite <- Eg in *. assert (goals ≠ []) as Hne by (rewrite Eg; discriminate).
  clear Eg g0 r.
  rewrite (computeRebalanceAllocations_writes goals savings Hne).
  rewrite totalAllocated_writes.
  - assert ((λ p : nat * Goal,
               allocationOf (map (λ g, weightOf (priority g)) goals)
                 (sumWeights (map (λ g, weightOf (priority g)) goals)) savings p.1 p.2)
            <$> imap pair goals
            = (λ g, Z.max 0 (Z.min (Math_round (inject_Z (priorityScore (priority g))
                                               / inject_Z (totalScore goals) * savings))
                                   (paceCap g))) <$> goals) as ->.
    { apply list_eq. intros i.
      rewrite !list_lookup_fmap, list_lookup_imap.
      destruct (goals !! i) as [g |] eqn:Hi; [| reflexivity]. cbn.
      f_equal. apply (allocationOf_formula goals savings i g Hi). }
    pose proof (totalScore_pos goals Hne) as HW.
    pose proof (allocations_sum_bound (totalScore goals) savings goals
                  ltac:(lia) Hs) as H.
    assert (inject_Z (totalScore goals) / inject_Z (totalScore goals) * savings
            == savings)%Q as E.
    { assert (0 < inject_Z (totalScore goals))%Q
        by (change 0%Q with (inject_Z 0); rewrite <- Zlt_Qlt; lia).
      field. lra. }
    rewrite E in H. unfold totalAllocated at 1. rewrite map_fold_empty.
    rewrite Z.add_0_l. exact H.
  - assert ((λ p : nat * Goal, id p.2) <$> imap pair goals = id <$> goals) as ->;
      [| exact Hnd].
    apply list_eq. intros i. rewrite !list_lookup_fmap, list_lookup_imap.
    destruct (goals !! i); reflexivity.
  - intros p _. apply lookup_empty.
Qed.

Lemma rebalance_total_bound_witness :
  NoDup (id <$> threeHigh)
  ∧ (0 <= 3500)%Q
  ∧ (inject_Z (totalAllocated (computeRebalanceAllocations threeHigh 3500))
     <= 3500 + inject_Z 3 / 2)%Q.
Proof.
  assert (NoDup (id <$> threeHigh)) as Hnd
    by (apply (bool_decide_unpack _); vm_compute; reflexivity).
  split; [exact Hnd |]. split; [discriminate |].
  apply (rebalance_total_bound threeHigh 3500 Hnd). discriminate.
Defined.

End GoalsPageMore.

(** ** More on the aggregate *)

Module BankContextMore.
Import JS JSFacts BankContext Spec MoreSpec Examples MoreExamples BankContextFacts.

Lemma Qsum_app (l1 l2 : list Q) : (Qsum (l1 ++ l2) == Qsum l1 + Qsum l2)%Q.
Proof.
  induction l1 as [| x l1 IH].
  - change (Qsum l2 == 0 + Qsum l2)%Q. lra.
  - change (x + Qsum (l1 ++ l2) == x + Qsum l1 + Qsum l2)%Q. lra.
Qed.

(** *** The category map *)

Lemma categoryMap_get_set (c c' : string) (x : Q) (m : list (string * Q)) :
  categoryMap_get c' (categoryMap_set c x m)
  = if decide (c = c') then Some x else categoryMap_get c' m.
Proof.
  induction m as [| [k v] m IH]; cbn [categoryMap_set categoryMap_get].
  - destruct (String.eqb_spec c c'); case_decide; congruence.
  - destruct (String.eqb_spec k c) as [-> | Hk]; cbn [categoryMap_get].
    + destruct (String.eqb_spec c c'); case_decide; congruence.
    + rewrite IH. destruct (String.eqb_spec k c'); [| reflexivity].
      case_decide; congruence.
Qed.

Lemma categoryMap_get_None (c : string) (m : list (string * Q)) :
  categoryMap_get c m = None <-> c ∉ m.*1.
Proof.
  induction m as [| [k v] m IH]; cbn [categoryMap_get fmap list_fmap fst].
  - split; [intros _; apply not_elem_of_nil | reflexivity].
  - rewrite not_elem_of_cons. destruct (String.eqb_spec k c) as [-> | Hk].
    + split; [discriminate | intros [H _]; contradiction].
    + rewrite IH. split; [intros H; split; [congruence | exact H] | intros [_ H]; exact H].
Qed.

Lemma categoryMap_set_keys (c : string) (x : Q) (m : list (string * Q)) :
  (categoryMap_set c x m).*1 = if decide (c ∈ m.*1) then m.*1 else m.*1 ++ [c].
Proof.
  induction m as [| [k v] m IH]; cbn [categoryMap_set fmap list_fmap fst].
  - rewrite decide_False by apply not_elem_of_nil. reflexivity.
  - destruct (String.eqb_spec k c) as [-> | Hk]; cbn [fmap list_fmap fst].
    + rewrite decide_True by left. reflexivity.
    + change (list_fmap _ _ fst (categoryMap_set c x m)) with (categoryMap_set c x m).*1.
      rewrite IH. change (list_fmap _ _ fst m) with m.*1.
      destruct (decide (c ∈ m.*1)) as [Hin | Hin].
      * rewrite decide_True by now right. reflexivity.
      * rewrite decide_False; [reflexivity |].
        rewrite elem_of_cons. intros [-> | H]; contradiction.
Qed.

Lemma categoryMap_set_values (c : string) (x : Q) (m : list (string * Q)) :
  (Qsum (categoryMap_set c x m).*2
   == Qsum m.*2 - or_nan (categoryMap_get c m) 0 + x)%Q.
Proof.
  induction m as [| [k v] m IH]; cbn [categoryMap_set categoryMap_get].
  - cbn. lra.
  - destruct (String.eqb_spec k c) as [-> | Hk].
    + cbn [fmap list_fmap snd Qsum foldr or_nan].
      pose proof (or_num_zero v). fold (Qsum (list_fmap _ _ snd m)). lra.
    + cbn [fmap list_fmap snd Qsum foldr].
      change (list_fmap _ _ snd (categoryMap_set c x m)) with (categoryMap_set c x m).*2.
      change (list_fmap _ _ snd m) with m.*2.
      fold (Qsum (categoryMap_set c x m).*2). fold (Qsum m.*2). lra.
Qed.

Lemma categoryInvariant_step (l : list Transaction) (m : list (string * Q))
    (t : Transaction) :
  categoryInvariant l m -> categoryInvariant (l ++ [t]) (categoryStep m t).
Proof.
  intros (Hnd & Hkeys & Hval & Hsum). unfold categoryStep.
  split; [| split; [| split]].
  - rewrite categoryMap_set_keys. case_decide; [exact Hnd |].
    apply NoDup_app. split; [exact Hnd |]. split.
    + intros c Hc Hc'. apply list_elem_of_singleton in Hc'. subst. contradiction.
    + apply NoDup_singleton.
  - intros c. rewrite categoryMap_set_keys.
    setoid_rewrite elem_of_app. setoid_rewrite list_elem_of_singleton.
    case_decide as Hin.
    + rewrite Hkeys. split.
      * intros (t' & Ht' & E). exists t'. tauto.
      * intros (t' & [Ht' | ->] & E); [exists t'; tauto |].
        subst c. apply Hkeys, Hin.
    + rewrite elem_of_app, list_elem_of_singleton, Hkeys. split.
      * intros [(t' & Ht' & E) | ->]; [exists t'; tauto | exists t; tauto].
      * intros (t' & [Ht' | ->] & E); [left; exists t'; tauto | right; congruence].
  - intros c. rewrite categoryMap_get_set, filter_app, fmap_app, Qsum_app, <- Hval.
    rewrite filter_cons, filter_nil.
    destruct (decide (category t = c)) as [-> | Hc].
    + cbn [or_nan]. rewrite or_num_zero. cbn. lra.
    + cbn. lra.
  - rewrite categoryMap_set_values, fmap_app, Qsum_app, Hsum. cbn. lra.
Qed.

Lemma categoryInvariant_fold (l : list Transaction) :
  categoryInvariant l (fold_left categoryStep l []).
Proof.
  induction l as [| t l IH] using rev_ind.
  - split; [apply NoDup_nil_2 |]. split; [| split].
    + intros c. split; [intros H; inversion H | intros (t & H & _); inversion H].
    + intros c. reflexivity.
    + reflexivity.
  - rewrite fold_left_app. cbn [fold_left]. apply categoryInvariant_step, IH.
Qed.

Lemma debits_of_month (m y : Z) (txns : list Transaction) :
  List.filter (isType debit) (List.filter (inMonth m y) txns)
  = filter (λ t, type t = debit ∧ DatedIn m y t) txns.
Proof.
  rewrite filter_filter_bool. apply filter_bool_Prop.
  intros t. rewrite andb_true_iff, isType_eq, inMonth_DatedIn. reflexivity.
Qed.

Lemma categoryData_names (tl : Q -> string) (now : DateFields)
    (txns : list Transaction) (fd : FinancialData) :
  calculateFinancialData tl now txns = Some fd ->
  ∃ m, m = fold_left categoryStep
             (filter (λ t, type t = debit ∧ DatedIn (monthIndex now) (fullYear now) t)
                     txns) []
    ∧ name <$> categoryData fd = m.*1
    ∧ value <$> categoryData fd = m.*2.
Proof.
  intros H. calc_inv H. rewrite debits_of_month.
  eexists. split; [reflexivity |].
  fold categoryStep.
  generalize (fold_left categoryStep
                (filter (λ t, type t = debit ∧ DatedIn (monthIndex now) (fullYear now) t)
                        txns) []).
  intros m. split; apply list_eq; intros i;
    rewrite !list_lookup_fmap, list_lookup_imap;
    destruct (m !! i) as [[k v] |]; reflexivity.
Qed.

(** In the category data every category of the month's debits appears, and
    appears once; its value is the debit spend of the month in that
    category. *)
Theorem categoryData_breakdown (tl : Q -> string) (now : DateFields)
    (txns : list Transaction) (fd : FinancialData) :
  calculateFinancialData tl now txns = Some fd ->
  NoDup (name <$> categoryData fd)
  ∧ (∀ c, c ∈ name <$> categoryData fd
          <-> ∃ t, t ∈ txns ∧ type t = debit
                   ∧ DatedIn (monthIndex now) (fullYear now) t ∧ category t = c)
  ∧ (∀ e, e ∈ categoryData fd ->
          (value e == categorySpend (name e) (monthIndex now) (fullYear now) txns)%Q).
Proof.
  intros H.
  destruct (categoryData_names tl now txns fd H) as (m & Em & En & Ev).
  pose proof (categoryInvariant_fold
                (filter (λ t, type t = debit ∧ DatedIn (monthIndex now) (fullYear now) t)
                        txns)) as (Hnd & Hkeys & Hval & _).
  rewrite <- Em in *. rewrite En.
  split; [exact Hnd |]. split.
  - intros c. rewrite Hkeys. split.
    + intros (t & Ht & E). apply list_elem_of_filter in Ht as [[? ?] ?]. eauto 6.
    + intros (t & Ht & ? & ? & E). exists t. split; [| exact E].
      apply list_elem_of_filter. tauto.
  - intros e He. apply list_elem_of_lookup in He as [i Hi].
    assert (m !! i = Some (name e, value e)) as Hm.
    { assert ((name <$> categoryData fd) !! i = Some (name e)) as H1
        by (rewrite list_lookup_fmap, Hi; reflexivity).
      assert ((value <$> categoryData fd) !! i = Some (value e)) as H2
        by (rewrite list_lookup_fmap, Hi; reflexivity).
      rewrite En in H1. rewrite Ev in H2.
      rewrite list_lookup_fmap in H1. rewrite list_lookup_fmap in H2.
      destruct (m !! i) as [[k v] |]; [| discriminate H1].
      cbn in H1, H2. congruence. }
    unfold categorySpend. rewrite <- list_filter_filter, <- Hval.
    assert (categoryMap_get (name e) m = Some (value e)) as ->.
    { clear - Hm Hnd. revert i Hm. induction m as [| [k v] m IH]; intros i Hm.
      - discriminate Hm.
      - cbn [fmap list_fmap fst] in Hnd. apply NoDup_cons in Hnd as [Hk Hnd].
        cbn [categoryMap_get]. destruct i as [| i]; cbn in Hm.
        + injection Hm as -> ->. now rewrite String.eqb_refl.
        + destruct (String.eqb_spec k (name e)) as [-> | _].
          * exfalso. apply Hk. apply list_elem_of_fmap. exists (name e, value e).
            split; [reflexivity |]. apply list_elem_of_lookup. eauto.
          * apply (IH Hnd i Hm). }
    cbn [or_nan]. now rewrite or_num_zero.
Qed.

Lemma categoryData_breakdown_witness :
  ∃ fd, calculateFinancialData enUS november2025 overspent = Some fd
    ∧ NoDup (name <$> categoryData fd)
    ∧ name <$> categoryData fd = ["Dining Out"; "rent"].
Proof.
  eexists. split; [reflexivity |]. split; [| vm_compute; reflexivity].
  match goal with
  | |- NoDup (name <$> categoryData ?fd) =>
      apply (categoryData_breakdown enUS november2025 overspent fd)
  end.
  reflexivity.
Defined.

(** *** The window and the current month *)

(** The last entry of the monthly data is the current month, and carries
    the totals shown on the cards. *)
Theorem monthlyData_last_is_current (tl : Q -> string) (now : DateFields)
    (txns : list Transaction) (fd : FinancialData) :
  ¬ (0 ≤ fullYear now ≤ 99) -> 0 ≤ monthIndex now ≤ 11 ->
  calculateFinancialData tl now txns = Some fd ->
  last (monthlyData fd)
  = Some {| month := monthShort now;
            income := totalIncome fd;
            expense := totalExpenses fd |}.
Proof.
  intros HY Hm H. calc_inv H. cbn [map last]. unfold monthEntry.
  rewrite (Date_ym1_rollover _ _ 0) by lia.
  destruct (Z.leb_spec 0 (monthIndex now)); [| lia].
  rewrite Z.sub_0_r. reflexivity.
Qed.

Lemma monthlyData_last_is_current_witness :
  ¬ (0 ≤ fullYear november2025 ≤ 99) ∧ 0 ≤ monthIndex november2025 ≤ 11
  ∧ ∃ fd, calculateFinancialData enUS november2025 scenarioA = Some fd
      ∧ last (monthlyData fd)
        = Some {| month := "Nov"; income := totalIncome fd; expense := totalExpenses fd |}.
Proof.
  split; [cbn; lia |]. split; [cbn; lia |].
  eexists. split; [reflexivity |].
  apply (monthlyData_last_is_current enUS november2025 scenarioA);
    [cbn; lia | cbn; lia | reflexivity].
Defined.

(** *** When there is nothing to say *)

Lemma Qsum_filter_le (P R : Transaction -> Prop)
    `{!∀ t, Decision (P t)} `{!∀ t, Decision (R t)} (l : list Transaction) :
  (∀ t, P t -> R t) ->
  Forall (λ t, 0 <= amount t)%Q l ->
  (Qsum (amount <$> filter P l) <= Qsum (amount <$> filter R l))%Q.
Proof.
  intros HPR. induction 1 as [| t l Ht _ IH]; [cbn; lra |].
  rewrite !filter_cons.
  destruct (decide (P t)) as [HP | HP].
  - rewrite decide_True by auto. rewrite !fmap_cons.
    change (amount t + Qsum (amount <$> filter P l)
            <= amount t + Qsum (amount <$> filter R l))%Q. lra.
  - destruct (decide (R t)); [| exact IH].
    rewrite fmap_cons.
    change (Qsum (amount <$> filter P l) <= amount t + Qsum (amount <$> filter R l))%Q.
    lra.
Qed.

Lemma dining_le_expenses (m y : Z) (txns : list Transaction) :
  Forall (λ t, 0 <= amount t)%Q txns ->
  (diningTotal m y txns <= monthTotal debit m y txns)%Q.
Proof.
  intros Hall. unfold diningTotal, monthTotal. apply Qsum_filter_le; [tauto | exact Hall].
Qed.

(** For a ledger of non-negative amounts there is no insight at all exactly
    when nothing was earned and nothing spent in the current month: only
    then does the home page say that the spending is looking good. *)
Theorem insights_empty_iff (tl : Q -> string) (now : DateFields)
    (txns : list Transaction) (fd : FinancialData) :
  Forall (λ t, 0 <= amount t)%Q txns ->
  calculateFinancialData tl now txns = Some fd ->
  insights fd = [] <-> (totalIncome fd == 0)%Q ∧ (totalExpenses fd == 0)%Q.
Proof.
  intros Hall H.
  pose proof (totals_nonneg tl now txns fd Hall H) as [Hi He].
  pose proof (dining_le_expenses (monthIndex now) (fullYear now) txns Hall) as Hd.
  rewrite <- dining_total, <- (month_total debit) in Hd.
  calc_inv H. cbn [totalIncome totalExpenses] in Hi, He.
  repeat match goal with
         | |- context [gtb ?a ?b] =>
             let E := fresh "E" in
             destruct (gtb a b) eqn:E;
             [apply gtb_true in E | apply gtb_false in E]
         end;
    cbn [app]; (split; [intros Hnil; try discriminate Hnil; split; lra
                       | intros [H1 H2]; try reflexivity; exfalso; lra]).
Qed.

Lemma insights_empty_iff_witness :
  Forall (λ t, 0 <= amount t)%Q julyCredit
  ∧ ∃ fd, calculateFinancialData enUS november2025 julyCredit = Some fd
      ∧ (insights fd = [] <-> (totalIncome fd == 0)%Q ∧ (totalExpenses fd == 0)%Q).
Proof.
  assert (Forall (λ t, 0 <= amount t)%Q julyCredit) as Hall
    by (repeat constructor; discriminate).
  split; [exact Hall |]. eexists. split; [reflexivity |].
  apply (insights_empty_iff enUS november2025 julyCredit _ Hall). reflexivity.
Defined.

(** *** Loading *)

Lemma or_undef_not_blank (o : option string) (d : string) :
  d ≠ "" -> or_undef o d ≠ "".
Proof. intros Hd. destruct o as [[| c r] |]; cbn; [exact Hd | discriminate | exact Hd]. Qed.

Lemma convert_never_blank (Date_parse : option string -> Date)
    (r : Loading.RawTransaction) :
  merchant (Loading.txn (Loading.convert Date_parse r)) ≠ ""
  ∧ category (Loading.txn (Loading.convert Date_parse r)) ≠ "".
Proof. split; apply or_undef_not_blank; discriminate. Qed.

(** A loaded transaction never has a blank merchant or a blank category,
    whatever the record it was made from lacked. *)
Theorem loaded_never_blank (Date_parse : option string -> Date)
    (response : option (list Loading.RawTransaction)) :
  Forall (λ t, merchant t ≠ "" ∧ category t ≠ "")
         (Loading.loadTransactions Date_parse response).
Proof.
  destruct response as [data |]; [| constructor].
  unfold Loading.loadTransactions. induction data as [| r data IH]; constructor.
  - apply convert_never_blank.
  - exact IH.
Qed.

(** The merchant shown is the refined one if there is one, else the raw
    merchant, else the description. *)
Example loaded_merchants :
  merchant <$> Loading.loadTransactions fixedDate (Some [bareRecord; refinedRecord])
  = ["Unknown"; "Amazon"]
  ∧ category <$> Loading.loadTransactions fixedDate (Some [bareRecord; refinedRecord])
    = ["other"; "other"].
Proof. split; reflexivity. Qed.

(** Every slice of the category chart of a loaded ledger has a name. *)
Theorem loaded_categories_named (Date_parse : option string -> Date)
    (response : option (list Loading.RawTransaction)) (tl : Q -> string)
    (now : DateFields) (fd : FinancialData) :
  calculateFinancialData tl now (Loading.loadTransactions Date_parse response) = Some fd ->
  Forall (λ e, name e ≠ "") (categoryData fd).
Proof.
  intros H.
  destruct (categoryData_names tl now _ fd H) as (m & Em & En & _).
  pose proof (categoryInvariant_fold
                (filter (λ t, type t = debit ∧ DatedIn (monthIndex now) (fullYear now) t)
                        (Loading.loadTransactions Date_parse response)))
    as (_ & Hkeys & _).
  rewrite <- Em in Hkeys.
  apply Forall_forall. intros e He.
  assert (name e ∈ m.*1) as Hin
    by (rewrite <- En; apply list_elem_of_fmap; eauto).
  apply Hkeys in Hin as (t & Ht & <-).
  apply list_elem_of_filter in Ht as [_ Ht].
  destruct response as [data |]; [| inversion Ht].
  unfold Loading.loadTransactions in Ht. rewrite GoalsPageFacts.map_fmap in Ht.
  apply list_elem_of_fmap in Ht as (r & -> & _).
  apply convert_never_blank.
Qed.

Lemma loaded_categories_named_witness :
  ∃ fd, calculateFinancialData enUS november2025
          (Loading.loadTransactions fixedDate (Some [bareRecord; refinedRecord])) = Some fd
    ∧ name <$> categoryData fd = ["other"]
    ∧ Forall (λ e, name e ≠ "") (categoryData fd).
Proof.
  eexists. split; [reflexivity |]. split; [vm_compute; reflexivity |].
  apply (loaded_categories_named fixedDate (Some [bareRecord; refinedRecord])
           enUS november2025).
  reflexivity.
Defined.

(** *** The window, on a concrete month *)

Lemma monthlyData_trailing_witness :
  ¬ (0 ≤ fullYear january2025 ≤ 99)
  ∧ ∃ fd, calculateFinancialData enUS january2025 julyCredit = Some fd
      ∧ Forall2 (entryOf julyCredit) (monthlyData fd) (trailingMonths january2025).
Proof.
  split; [cbn; lia |]. eexists. split; [reflexivity |].
  apply (monthlyData_trailing enUS january2025 julyCredit); [cbn; lia | reflexivity].
Defined.

End BankContextMore.

(** ** More on the home page *)

Module HomePageMore.
Import JS JSFacts BankContext Spec Examples MoreExamples BankContextFacts GoalsPageFacts.

(** The savings card points up exactly when the insights hold a success. *)
Theorem savings_trend_matches_insight (tl : Q -> string) (now : DateFields)
    (txns : list Transaction) (fd : FinancialData) :
  calculateFinancialData tl now txns = Some fd ->
  ∃ card, HomeStats.realStats tl fd !! 2%nat = Some card
    ∧ HomeStats.label card = "Savings Progress"
    ∧ (HomeStats.trend card = "up"
       <-> ∃ i, i ∈ insights fd ∧ insightType i = success).
Proof.
  intros H. calc_inv H. eexists. split; [reflexivity |]. split; [reflexivity |].
  cbn [HomeStats.trend totalSavings].
  repeat match goal with
         | |- context [gtb ?a ?b] => destruct (gtb a b)
         end;
    cbn [app];
    (split;
     [intros Hup; first [discriminate Hup | (eexists; split; [left | reflexivity])]
     | intros (i & Hi & Hs); try reflexivity;
       repeat (apply elem_of_cons in Hi as [-> | Hi]; [discriminate Hs |]);
       inversion Hi]).
Qed.

Lemma savings_trend_matches_insight_witness :
  ∃ fd, calculateFinancialData enUS november2025 scenarioA = Some fd
    ∧ ∃ card, HomeStats.realStats enUS fd !! 2%nat = Some card
        ∧ HomeStats.label card = "Savings Progress"
        ∧ HomeStats.trend card = "up".
Proof.
  eexists. split; [reflexivity |].
  match goal with
  | |- ∃ card, HomeStats.realStats _ ?fd !! _ = _ ∧ _ =>
      destruct (savings_trend_matches_insight enUS november2025 scenarioA fd eq_refl)
        as (card & H1 & H2 & H3)
  end.
  exists card. split; [exact H1 |]. split; [exact H2 |].
  apply H3. eexists. split; [left | reflexivity].
Defined.

End HomePageMore.

(** ** The goal cards, the summary and the dialogs *)

Module GoalsViewFacts.
Import JS JSFacts BankContext GoalsPage Number GoalsView Spec GoalSpec MoreSpec
       Examples MoreExamples BankContextFacts GoalsPageFacts.


(** *** Progress *)

Lemma getProgressPercentage_finite (current target : Q) :
  ¬ (target == 0)%Q ->
  getProgressPercentage current target = Num (Qmin (current / target * 100) 100).
Proof.
  intros Ht. unfold getProgressPercentage, div.
  destruct (Qeq_bool target 0) eqn:E; [apply Qeq_bool_iff in E; contradiction |].
  reflexivity.
Qed.

Lemma progress_reaches_100 (current target : Q) :
  (0 < target)%Q ->
  geb (getProgressPercentage current target) (Num 100) = Qle_bool target current.
Proof.
  intros Ht. rewrite getProgressPercentage_finite by lra. cbn [geb].
  assert (current / target * 100 == current * (100 / target))%Q as E by (field; lra).
  assert (0 < 100 / target)%Q as Hk by (apply Qlt_shift_div_l; lra).
  assert (target * (100 / target) == 100)%Q as Ek by (field; lra).
  set (x := (current / target * 100)%Q) in *. set (k := (100 / target)%Q) in *.
  clearbody x k. pose proof (Q.le_min_l x 100) as Hl.
  destruct (Qle_bool target current) eqn:B.
  - apply Qle_bool_iff in B. apply Qle_bool_iff, Q.min_glb; [nra | lra].
  - destruct (Qle_bool 100 (Qmin x 100)) eqn:B'; [| reflexivity].
    apply Qle_bool_iff in B'.
    assert (target <= current)%Q as H by nra.
    apply Qle_bool_iff in H. congruence.
Qed.

(** For a positive target the progress is a number of at most 100, not
    negative when nothing negative was saved, and it reaches 100 (the goal
    counts as completed) exactly when the target has been saved. *)
Theorem progress_positive_target (current target : Q) :
  (0 < target)%Q ->
  ∃ q, getProgressPercentage current target = Num q
    ∧ (q <= 100)%Q
    ∧ ((0 <= current)%Q -> (0 <= q)%Q)
    ∧ (geb (getProgressPercentage current target) (Num 100) = true
       <-> (target <= current)%Q).
Proof.
  intros Ht. pose proof (progress_reaches_100 current target Ht) as Hg.
  rewrite getProgressPercentage_finite in * by lra.
  eexists. split; [reflexivity |].
  split; [apply Q.le_min_r |]. split; [| rewrite Hg; apply Qle_bool_iff].
  intros Hc. apply Q.min_glb; [| lra].
  assert (0 <= current / target)%Q by (apply Qle_shift_div_l; lra). lra.
Qed.

Lemma progress_positive_target_witness :
  (0 < 3000)%Q
  ∧ geb (getProgressPercentage 3200 3000) (Num 100) = true
  ∧ geb (getProgressPercentage 600 3000) (Num 100) = false.
Proof.
  split; [reflexivity |].
  destruct (progress_positive_target 3200 3000) as (_ & _ & _ & _ & H1); [reflexivity |].
  destruct (progress_positive_target 600 3000) as (_ & _ & _ & _ & H2); [reflexivity |].
  split; [apply H1; discriminate |].
  destruct (geb (getProgressPercentage 600 3000) (Num 100)) eqn:E; [| reflexivity].
  exfalso. apply (proj1 H2 eq_refl). reflexivity.
Defined.

(** With a target of zero the division is not guarded: something saved
    gives 100 and the goal counts as completed; nothing saved gives [NaN],
    which the bar passes on and which does not count as completed; a
    negative amount gives minus infinity, which the bar draws as 0. *)
Theorem progress_zero_target (current target : Q) :
  (target == 0)%Q ->
  ((0 < current)%Q ->
   getProgressPercentage current target = Num 100
   ∧ geb (getProgressPercentage current target) (Num 100) = true)
  ∧ ((current == 0)%Q ->
     getProgressPercentage current target = NaN
     ∧ Progress (getProgressPercentage current target) = NaN
     ∧ geb (getProgressPercentage current target) (Num 100) = false)
  ∧ ((current < 0)%Q ->
     getProgressPercentage current target = NegInfinity
     ∧ Progress (getProgressPercentage current target) = Num 0).
Proof.
  intros Ht. apply Qeq_bool_iff in Ht.
  unfold getProgressPercentage, div. rewrite Ht.
  split; [| split]; intros Hc.
  - assert (Qeq_bool current 0 = false) as ->.
    { destruct (Qeq_bool current 0) eqn:E; [| reflexivity].
      apply Qeq_bool_iff in E. lra. }
    assert (gtb current 0 = true) as -> by (apply gtb_true; exact Hc).
    split; reflexivity.
  - apply Qeq_bool_iff in Hc. rewrite Hc. repeat split.
  - assert (Qeq_bool current 0 = false) as ->.
    { destruct (Qeq_bool current 0) eqn:E; [| reflexivity].
      apply Qeq_bool_iff in E. lra. }
    assert (gtb current 0 = false) as -> by (apply gtb_false; lra).
    split; reflexivity.
Qed.

Lemma progress_zero_target_witness :
  (0 == 0)%Q
  ∧ getProgressPercentage 500 0 = Num 100
  ∧ getProgressPercentage 0 0 = NaN
  ∧ Progress (getProgressPercentage (-5) 0) = Num 0.
Proof.
  destruct (progress_zero_target 500 0) as ((H1 & _) & _); [reflexivity | reflexivity |].
  destruct (progress_zero_target 0 0) as (_ & (H2 & _) & _); [reflexivity | reflexivity |].
  destruct (progress_zero_target (-5) 0) as (_ & _ & (_ & H3));
    [reflexivity | reflexivity |].
  split; [reflexivity |]. split; [exact H1 |]. split; [exact H2 | exact H3].
Defined.



(** *** The order of the cards *)

Lemma sortInsert_Permutation {A} (compare : A -> A -> Q) (x : A) (l : list A) :
  sortInsert compare x l ≡ₚ x :: l.
Proof.
  induction l as [| y l IH]; cbn [sortInsert]; [reflexivity |].
  destruct (gtb (compare x y) 0); [| reflexivity].
  rewrite IH. apply Permutation_swap.
Qed.

Lemma Array_sort_Permutation {A} (compare : A -> A -> Q) (l : list A) :
  Array_sort compare l ≡ₚ l.
Proof.
  induction l as [| x l IH]; [reflexivity |].
  cbn [Array_sort foldr]. fold (Array_sort compare l).
  rewrite sortInsert_Permutation, IH. reflexivity.
Qed.

(** An element goes in without passing anything of its own kind. *)
Lemma sortInsert_filter {A} (compare : A -> A -> Q) (P : A -> Prop)
    `{!∀ x, Decision (P x)} (x : A) (l : list A) :
  (∀ y, P x -> P y -> gtb (compare x y) 0 = false) ->
  filter P (sortInsert compare x l) = filter P (x :: l).
Proof.
  intros Hxy. induction l as [| y l IH]; cbn [sortInsert]; [reflexivity |].
  destruct (gtb (compare x y) 0) eqn:E; [| reflexivity].
  rewrite filter_cons, IH, !filter_cons.
  destruct (decide (P x)) as [Hx | Hx]; [| reflexivity].
  destruct (decide (P y)) as [Hy | Hy]; [| reflexivity].
  rewrite (Hxy y Hx Hy) in E. discriminate E.
Qed.

Lemma Array_sort_stable {A} (compare : A -> A -> Q) (P : A -> Prop)
    `{!∀ x, Decision (P x)} (l : list A) :
  (∀ x y, P x -> P y -> gtb (compare x y) 0 = false) ->
  filter P (Array_sort compare l) = filter P l.
Proof.
  intros Hxy. induction l as [| x l IH]; [reflexivity |].
  cbn [Array_sort foldr]. fold (Array_sort compare l).
  rewrite sortInsert_filter by (intros y; apply Hxy).
  rewrite !filter_cons, IH. reflexivity.
Qed.

Lemma compareGoals_le (a b : Goal) :
  gtb (compareGoals a b) 0 = false <-> goesBefore a b.
Proof.
  rewrite gtb_false. unfold compareGoals, goesBefore, remaining.
  destruct (Z.eqb_spec (rank (priority a) - rank (priority b)) 0) as [E | E];
    cbn [negb].
  - split.
    + intros H. right. split; [lia | lra].
    + intros [H | [_ H]]; [lia | lra].
  - change 0%Q with (inject_Z 0). rewrite <- Zle_Qle. split.
    + intros H. left. lia.
    + intros [H | [H _]]; lia.
Qed.

Lemma compareGoals_gt (a b : Goal) :
  gtb (compareGoals a b) 0 = true -> goesBefore b a.
Proof.
  rewrite gtb_true. unfold compareGoals, goesBefore, remaining.
  destruct (Z.eqb_spec (rank (priority a) - rank (priority b)) 0) as [E | E];
    cbn [negb].
  - intros H. right. split; [lia | lra].
  - change 0%Q with (inject_Z 0). rewrite <- Zlt_Qlt. intros H. left. lia.
Qed.

Lemma goesBefore_trans (a b c : Goal) : goesBefore a b -> goesBefore b c -> goesBefore a c.
Proof.
  unfold goesBefore. intros [H1 | [E1 H1]] [H2 | [E2 H2]].
  - left. lia.
  - left. lia.
  - left. lia.
  - right. split; [lia | lra].
Qed.

Lemma sortInsert_sorted (x : Goal) (l : list Goal) :
  StronglySorted goesBefore l -> StronglySorted goesBefore (sortInsert compareGoals x l).
Proof.
  induction 1 as [| y l Hs IH Hy]; cbn [sortInsert].
  - repeat constructor.
  - destruct (gtb (compareGoals x y) 0) eqn:E.
    + constructor; [exact IH |].
      rewrite sortInsert_Permutation. constructor; [| exact Hy].
      apply compareGoals_gt, E.
    + apply compareGoals_le in E. constructor; [constructor; assumption |].
      constructor; [exact E |].
      eapply Forall_impl; [exact Hy |]. intros z Hz. apply (goesBefore_trans x y z E Hz).
Qed.

(** The cards show every goal once, in the order of priority (high, medium,
    anything else) and, within a priority, of what is left to save, the
    larger first. *)
Theorem sortedGoals_ordered (goals : list Goal) :
  sortedGoals goals ≡ₚ goals ∧ StronglySorted goesBefore (sortedGoals goals).
Proof.
  split; [apply Array_sort_Permutation |].
  unfold sortedGoals. induction goals as [| g goals IH]; [constructor |].
  cbn [Array_sort foldr]. apply sortInsert_sorted, IH.
Qed.

(** Goals of equal priority rank with as much left to save keep the order
    in which the store returned them. *)
Theorem sortedGoals_stable (goals : list Goal) (k : Goal) :
  filter (sameKey k) (sortedGoals goals) = filter (sameKey k) goals.
Proof.
  apply Array_sort_stable. intros x y [Rx Qx] [Ry Qy].
  apply compareGoals_le. right. split; [lia | lra].
Qed.

Example sortedGoals_unsorted : id <$> sortedGoals unsorted = ["e"; "b"; "a"; "c"; "d"].
Proof. vm_compute. reflexivity. Qed.

(** *** The summary *)

(** With positive targets the summary counts as completed exactly the goals
    whose target has been saved. *)
Theorem completed_counts_reached (goals : list Goal) :
  Forall (λ g, 0 < target_amount g)%Q goals ->
  completedGoals goals
  = length (List.filter (fun g => Qle_bool (target_amount g) (current_amount g)) goals).
Proof.
  unfold completedGoals. induction 1 as [| g goals Hg _ IH]; [reflexivity |].
  cbn [List.filter]. rewrite (progress_reaches_100 _ _ Hg).
  destruct (Qle_bool (target_amount g) (current_amount g)); cbn [length]; now rewrite IH.
Qed.

Lemma completed_counts_reached_witness :
  Forall (λ g, 0 < target_amount g)%Q reachedAndPending
  ∧ completedGoals reachedAndPending = 1%nat.
Proof.
  assert (Forall (λ g, 0 < target_amount g)%Q reachedAndPending) as Hall
    by (repeat constructor).
  split; [exact Hall |].
  rewrite (completed_counts_reached reachedAndPending Hall). reflexivity.
Defined.

(** *** The suggested goal *)





Example suggested_goal_fallback :
  suggestedGoal 3500 = 5250
  ∧ handleAddGoal_monthly_contribution Examples.parseFloat Examples.parseInt
      (handleSetSuggestedGoal plainNumber enUS 3500) 3500 = 875.
Proof. split; reflexivity. Qed.

(** *** The dialogs *)

(** Opening the edit dialog on a goal without a duration and saving it
    resets its monthly contribution to 0 and sends no duration, while what
    was saved so far is kept. *)
Theorem edit_without_duration (parseFloat : string -> option Q)
    (parseInt : string -> option Z) (Number_toString : Q -> string)
    (uid : string) (card : GoalCard) (savings : Q) :
  parseInt "0" = Some 0 ->
  uid ≠ "" ->
  (∀ d, duration_months (goal card) = Some d -> (d == 0)%Q) ->
  ∃ data,
    handleUpdateGoal parseFloat parseInt (Some uid) (Some card)
      (openEditDialog Number_toString card) savings
    = Some (id (goal card), data)
    ∧ data_monthly_contribution data = 0
    ∧ data_duration_months data = None
    ∧ data_current_amount data = current_amount (goal card).
Proof.
  intros H0 Hu Hd. unfold handleUpdateGoal. cbn [or_undef].
  destruct uid as [| c r]; [contradiction |]. cbn [or_str].
  eexists. split; [reflexivity |].
  assert (Form.duration_months (openEditDialog Number_toString card) = "") as E.
  { cbn [openEditDialog Form.duration_months].
    destruct (duration_months (goal card)) as [d |]; [| reflexivity].
    specialize (Hd d eq_refl). apply Qeq_bool_iff in Hd. now rewrite Hd. }
  cbn [goalData data_monthly_contribution data_duration_months data_current_amount].
  rewrite E. split; [| split; reflexivity].
  unfold handleAddGoal_monthly_contribution. rewrite E. cbn [or_str]. rewrite H0.
  apply monthlyContribution_no_duration. intros d [= <-]. lia.
Qed.

Lemma edit_without_duration_witness :
  Examples.parseInt "0" = Some 0
  ∧ ∃ data,
      handleUpdateGoal Examples.parseFloat Examples.parseInt (Some "u1") (Some phoneCard)
        (openEditDialog plainNumber phoneCard) 4000
      = Some ("g2", data)
      ∧ data_monthly_contribution data = 0
      ∧ data_duration_months data = None
      ∧ data_current_amount data = 600%Q.
Proof.
  split; [reflexivity |].
  apply (edit_without_duration Examples.parseFloat Examples.parseInt plainNumber
           "u1" phoneCard 4000);
    [reflexivity | discriminate | intros d Hd; discriminate Hd].
Defined.

(** The same goal is given 400 a month by the rebalance. *)
Example rebalance_without_duration :
  computeRebalanceAllocations scenarioE 4000 !! id (goal phoneCard) = Some 400.
Proof. vm_compute. reflexivity. Qed.

(** Nothing is sent without a user, a title and a target; what is sent
    starts with nothing saved and has a category, a priority and a
    contribution that is not negative. *)
Theorem handleAddGoal_payload (parseFloat : string -> option Q)
    (parseInt : string -> option Z) (uid : option string)
    (newGoal : Form.NewGoalForm) (savings : Q) :
  (handleAddGoal parseFloat parseInt uid newGoal savings = None
   <-> or_undef uid "" = "" ∨ Form.title newGoal = "" ∨ Form.target_amount newGoal = "")
  ∧ (∀ data, handleAddGoal parseFloat parseInt uid newGoal savings = Some data ->
       data_title data ≠ ""
       ∧ data_current_amount data = 0%Q
       ∧ data_category data ≠ ""
       ∧ data_priority data ≠ ""
       ∧ 0 ≤ data_monthly_contribution data).
Proof.
  unfold handleAddGoal.
  destruct (or_undef uid "") as [| c1 r1] eqn:Eu;
    [split; [split; [auto | reflexivity] | discriminate] |].
  destruct (Form.title newGoal) as [| c2 r2] eqn:Et;
    [split; [split; [auto | reflexivity] | discriminate] |].
  destruct (Form.target_amount newGoal) as [| c3 r3] eqn:Ea;
    [split; [split; [auto | reflexivity] | discriminate] |].
  split.
  - split; [discriminate | intros [H | [H | H]]; discriminate H].
  - intros data [= <-]. cbn [goalData data_title data_current_amount data_category
                               data_priority data_monthly_contribution].
    rewrite Et. split; [discriminate |]. split; [reflexivity |].
    split; [destruct (Form.category newGoal); discriminate |].
    split; [destruct (Form.priority newGoal); discriminate |].
    unfold handleAddGoal_monthly_contribution, monthlyContribution. lia.
Qed.

Lemma handleAddGoal_payload_witness :
  ∃ data, handleAddGoal Examples.parseFloat Examples.parseInt (Some "u1") scenarioC 3500
          = Some data
    ∧ data_title data ≠ ""
    ∧ data_current_amount data = 0%Q
    ∧ data_category data ≠ ""
    ∧ data_priority data ≠ ""
    ∧ 0 ≤ data_monthly_contribution data.
Proof.
  eexists. split; [reflexivity |].
  apply (handleAddGoal_payload Examples.parseFloat Examples.parseInt (Some "u1")
           scenarioC 3500).
  reflexivity.
Defined.

(** *** Applying a rebalance *)

Lemma map_to_list_writes (f : nat -> Goal -> Z) (l : list (nat * Goal))
    (acc : gmap string Z) :
  NoDup ((λ p, id p.2) <$> l) ->
  (∀ p, p ∈ l -> acc !! id p.2 = None) ->
  map_to_list (fold_left (write f) l acc)
  ≡ₚ ((λ p, (id p.2, f p.1 p.2)) <$> l) ++ map_to_list acc.
Proof.
  revert acc. induction l as [| [i g] l IH]; intros acc Hnd Hfresh.
  - reflexivity.
  - rewrite fmap_cons in Hnd. apply NoDup_cons in Hnd as [Hg Hnd].
    cbn [fold_left write]. rewrite IH; [| exact Hnd |].
    + rewrite map_to_list_insert by (apply (Hfresh (i, g)); left).
      rewrite fmap_cons. cbn [fst snd]. symmetry. apply Permutation_middle.
    + intros p Hp. rewrite lookup_insert_ne.
      * apply Hfresh. now right.
      * intros E. apply Hg. apply list_elem_of_fmap. exists p.
        split; [exact E | exact Hp].
Qed.

Lemma find_by_id (cards : list GoalCard) (card : GoalCard) :
  NoDup ((λ c, id (goal c)) <$> cards) -> card ∈ cards ->
  List.find (fun g => String.eqb (id (goal g)) (id (goal card))) cards = Some card.
Proof.
  intros Hnd Hin. induction cards as [| c cards IH]; [inversion Hin |].
  rewrite fmap_cons in Hnd. apply NoDup_cons in Hnd as [Hc Hnd].
  cbn [List.find]. destruct (String.eqb_spec (id (goal c)) (id (goal card))) as [E | E].
  - apply elem_of_cons in Hin as [-> | Hin]; [reflexivity |].
    exfalso. apply Hc. rewrite E. apply list_elem_of_fmap. eauto.
  - apply elem_of_cons in Hin as [-> | Hin]; [contradiction |]. apply (IH Hnd Hin).
Qed.

Example applyRebalance_scenarioE :
  (λ p, (p.1, Rebalancing.u_monthly_contribution p.2, Rebalancing.u_priority p.2))
  <$> Rebalancing.applyRebalance (Some "u1") scenarioECards [("g1", 3000); ("g2", 400); ("gone", 7)]
  = [("g1", 3000, "high"); ("g2", 400, "low")].
Proof. vm_compute. reflexivity. Qed.

End GoalsViewFacts.

(** ** The arithmetic of the engine *)

Module Binary64Facts.
Import JS JSFacts Binary64.

Lemma pow2_pos (p : Z) : (0 < 2 ^ p)%Q.
Proof. apply Qpower_0_lt. reflexivity. Qed.

Lemma nearestEven_nonneg (x : Q) : (0 <= x)%Q -> 0 ≤ nearestEven x.
Proof.
  intros Hx. unfold nearestEven.
  pose proof (Qfloor_resp_le 0 x Hx) as Hf. change (Qfloor 0) with 0 in Hf.
  destruct (x - inject_Z (Qfloor x) ?= 1 # 2)%Q; [destruct (Z.even _) | |]; lia.
Qed.

Lemma nearestEven_nonpos (x : Q) : (x <= 0)%Q -> nearestEven x ≤ 0.
Proof.
  intros Hx. unfold nearestEven.
  pose proof (Qfloor_resp_le x 0 Hx) as Hf0. change (Qfloor 0) with 0 in Hf0.
  destruct (Z.eq_dec (Qfloor x) 0) as [E | E].
  - rewrite E. assert ((x - inject_Z 0 ?= 1 # 2)%Q = Lt) as ->; [| lia].
    apply (proj1 (Qlt_alt _ _)). change (inject_Z 0) with 0%Q. lra.
  - destruct (x - inject_Z (Qfloor x) ?= 1 # 2)%Q; [destruct (Z.even _) | |]; lia.
Qed.

(** Rounding keeps the sign. *)
Lemma nearest_nonneg (x : Q) : (0 <= x)%Q -> (0 <= nearest x)%Q.
Proof.
  intros Hx. unfold nearest. destruct (Qeq_bool x 0); [lra |].
  rewrite Qred_correct. pose proof (pow2_pos (exponent x)) as Hp.
  apply Qmult_le_0_compat; [| lra].
  change 0%Q with (inject_Z 0). rewrite <- Zle_Qle. apply nearestEven_nonneg.
  apply Qle_shift_div_l; [exact Hp | lra].
Qed.

Lemma nearest_nonpos (x : Q) : (x <= 0)%Q -> (nearest x <= 0)%Q.
Proof.
  intros Hx. unfold nearest. destruct (Qeq_bool x 0); [lra |].
  rewrite Qred_correct. pose proof (pow2_pos (exponent x)) as Hp.
  assert (inject_Z (nearestEven (x / 2 ^ exponent x)) <= 0)%Q as Hn.
  { change 0%Q with (inject_Z 0). rewrite <- Zle_Qle. apply nearestEven_nonpos.
    apply Qle_shift_div_r; [exact Hp | lra]. }
  nra.
Qed.

Lemma mul_nonneg (x y : Q) : (0 <= x)%Q -> (0 <= y)%Q -> (0 <= mul x y)%Q.
Proof.
  intros Hx Hy. unfold mul. apply nearest_nonneg.
  apply Qmult_le_0_compat; apply nearest_nonneg; assumption.
Qed.

(** The literals 0.6 and 0.4 are not binary64 numbers; 0.25 is. *)
Example nearest_literals :
  nearest 0.6 = 5404319552844595 # 9007199254740992
  ∧ nearest 0.4 = 3602879701896397 # 9007199254740992
  ∧ nearest 0.25 = 1 # 4.
Proof. vm_compute. repeat split. Qed.

(** 0.1 + 0.2 is 0.30000000000000004, and 0.6 times 35/6 falls below 3.5. *)
Example add_mul_rounded :
  add 0.1 0.2 = 1351079888211149 # 4503599627370496
  ∧ (0.3 < add 0.1 0.2)%Q
  ∧ mul 0.6 (div 35 6) = 7881299347898367 # 2251799813685248
  ∧ (mul 0.6 (div 35 6) < 3.5)%Q
  ∧ Math_round (mul 0.6 (div 35 6)) = 3
  ∧ Math_round (0.6 * (35 / 6)) = 4.
Proof. vm_compute. repeat split. Qed.

(** The smallest numbers: half of 2^-1074 goes to zero, three halves of it
    to twice it. *)
Example nearest_smallest :
  nearest (2 ^ (-1075)) = 0%Q
  ∧ (nearest (3 * 2 ^ (-1075)) == 2 ^ (-1073))%Q
  ∧ (nearest (2 ^ (-1074)) == 2 ^ (-1074))%Q.
Proof. vm_compute. repeat split. Qed.

(** On these operands the four operations are those of the Standard
    Library's reference implementation at 53 bits. *)
Example operations_as_SpecFloat :
  Forall (λ p : Q * Q,
            (valueOf (SpecFloat.SFadd 53 1024 (encode (nearest p.1)) (encode (nearest p.2)))
             == add p.1 p.2)%Q
            ∧ (valueOf (SpecFloat.SFsub 53 1024 (encode (nearest p.1)) (encode (nearest p.2)))
               == sub p.1 p.2)%Q
            ∧ (valueOf (SpecFloat.SFmul 53 1024 (encode (nearest p.1)) (encode (nearest p.2)))
               == mul p.1 p.2)%Q
            ∧ (valueOf (SpecFloat.SFdiv 53 1024 (encode (nearest p.1)) (encode (nearest p.2)))
               == div p.1 p.2)%Q)
         [ (0.1, 0.2); (0.6, 35 # 6); (0.4, 27310.833333333332); (35, 6); (1, 3);
           (1051.00, 260.69); (639.89, 411.11); (- 8165.6, 45.30);
           (- 0.1, 0.3); (100000, 7); (1 # 3, - 3); (2 ^ 53 + 1, 1);
           (3 * 2 ^ (-1074), 7); (2 ^ (-1022), 2 ^ 52 + 1); (2 ^ 60 + 1, 2 ^ (-30)) ]%Q.
Proof. repeat constructor. Qed.

End Binary64Facts.

(** ** The goal computations in the arithmetic of the engine *)

Module GoalsPage64Facts.
Import JS JSFacts BankContext GoalsPage Spec GoalSpec Binary64 GoalsView
       Examples MoreExamples Examples64
       BankContextFacts GoalsPageFacts Binary64Facts GoalsViewFacts.

(** *** The savings baseline *)

(** [Math.max(x, 0) || 3500] is [x] when it is positive and the fallback
    otherwise. *)
Lemma max_or_fallback (x : Q) : or_num (Qmax x 0) 3500 = GoalSpec64.orFallback x.
Proof.
  unfold GoalSpec64.orFallback, Qmax, GenericMinMax.gmax.
  destruct (Qlt_le_dec 0 x) as [Hpos | Hneg].
  - assert ((x ?= 0)%Q = Gt) as -> by (apply (proj1 (Qgt_alt _ _)); exact Hpos).
    apply or_num_ne. lra.
  - destruct (x ?= 0)%Q eqn:E.
    + apply or_num_eq. apply Qeq_alt. exact E.
    + apply or_num_eq. reflexivity.
    + apply (proj2 (Qgt_alt _ _)) in E. lra.
Qed.

Lemma orFallback_pos (x : Q) : (0 < GoalSpec64.orFallback x)%Q.
Proof. unfold GoalSpec64.orFallback. destruct (Qlt_le_dec 0 x); [assumption | reflexivity]. Qed.

Lemma netStep_net (l : list Transaction) (a : Q) :
  fold_left GoalsPage64.netStep l a
  = fold_left (λ acc t, if decide (type t = credit) then add acc (amount t)
                        else sub acc (amount t)) l a.
Proof.
  revert a. induction l as [| t r IH]; intros a; [reflexivity |].
  cbn [fold_left]. rewrite <- IH. f_equal. unfold GoalsPage64.netStep.
  destruct (type t); case_decide; congruence.
Qed.

(** The baseline of a ledger that is not empty. *)
Lemma baseline_netAverage (now : DateFields) (txns : list Transaction) :
  txns ≠ [] ->
  GoalsPage64.calculateAvgMonthlySavings now txns
  = GoalSpec64.orFallback (GoalSpec64.netAverage now txns).
Proof.
  intros Hne. unfold GoalsPage64.calculateAvgMonthlySavings.
  destruct txns as [| t r]; [contradiction |]. cbn [length Nat.eqb].
  rewrite max_or_fallback, netStep_net.
  rewrite (filter_bool_Prop _ (Recent now)) by reflexivity. reflexivity.
Qed.

(** C10, as the code has it. The savings baseline is never zero or
    negative: it is the fallback 3500 for an empty ledger; otherwise the
    net is taken over the transactions dated on or after the first day of
    the month six months before the current one (later ones included), one
    after the other in the order of the ledger and in the arithmetic of the
    engine, and divided by six: the baseline is 3500 when that average is
    zero or negative, and that average when it is positive. *)
Theorem C10_savings_baseline_positive (now : DateFields) (txns : list Transaction) :
  (0 < GoalsPage64.calculateAvgMonthlySavings now txns)%Q
  ∧ (txns = [] -> GoalsPage64.calculateAvgMonthlySavings now txns = 3500%Q)
  ∧ ((GoalSpec64.netAverage now txns <= 0)%Q ->
     GoalsPage64.calculateAvgMonthlySavings now txns = 3500%Q)
  ∧ ((0 < GoalSpec64.netAverage now txns)%Q ->
     GoalsPage64.calculateAvgMonthlySavings now txns = GoalSpec64.netAverage now txns).
Proof.
  destruct txns as [| t r].
  - split; [reflexivity |]. split; [reflexivity |]. split; [reflexivity |].
    intros H. vm_compute in H. discriminate H.
  - rewrite baseline_netAverage by discriminate.
    split; [apply orFallback_pos |]. split; [discriminate |].
    unfold GoalSpec64.orFallback.
    split; intros H; destruct (Qlt_le_dec 0 _); try reflexivity; lra.
Qed.

Lemma C10_savings_baseline_positive_witness :
  GoalsPage64.calculateAvgMonthlySavings november2025 [] = 3500%Q
  ∧ GoalsPage64.calculateAvgMonthlySavings november2025 onlyDebit = 3500%Q
  ∧ GoalsPage64.calculateAvgMonthlySavings november2025 halfYear = 6000%Q
  ∧ GoalsPage64.calculateAvgMonthlySavings november2025 lateSpring = 99%Q.
Proof.
  split; [| split; [| split]].
  - destruct (C10_savings_baseline_positive november2025 []) as (_ & H & _).
    apply H. reflexivity.
  - destruct (C10_savings_baseline_positive november2025 onlyDebit) as (_ & _ & H & _).
    apply H. vm_compute. discriminate.
  - destruct (C10_savings_baseline_positive november2025 halfYear) as (_ & _ & _ & H).
    rewrite H; [vm_compute | vm_compute]; reflexivity.
  - destruct (C10_savings_baseline_positive november2025 lateSpring) as (_ & _ & _ & H).
    rewrite H; [vm_compute | vm_compute]; reflexivity.
Defined.

(** Against C10 as stated, on 15 November 2025, when the six months that
    end with the current one are June to November. A credit of 600 on 2 May
    and a debit of 6 on 1 November leave the net of these months negative,
    so that the baseline should be the fallback; the code counts the credit
    of May and returns 99. A debit of 1051.00 followed by credits of 260.69,
    379.20 and 411.11 has a net of zero, so that the baseline should be the
    fallback again; the engine is left with 2^-44 and the code returns a
    sixth of it. *)
Lemma C10_counterexample :
  trailingMonths november2025
  = [(2025, 5); (2025, 6); (2025, 7); (2025, 8); (2025, 9); (2025, 10)]
  ∧ (GoalSpec64.trailingNetAverage november2025 lateSpring < 0)%Q
  ∧ GoalsPage64.calculateAvgMonthlySavings november2025 lateSpring = 99%Q
  ∧ GoalsPage64.calculateAvgMonthlySavings november2025 lateSpring ≠ 3500%Q
  ∧ (GoalSpec64.trailingNetAverage november2025 debitFirst == 0)%Q
  ∧ GoalSpec64.net debitFirst = 1 # 17592186044416
  ∧ (0 < GoalsPage64.calculateAvgMonthlySavings november2025 debitFirst
     < 1 # 100000000000000)%Q
  ∧ GoalsPage64.calculateAvgMonthlySavings november2025 debitFirst ≠ 3500%Q.
Proof. vm_compute. repeat split; discriminate. Qed.

(** The order of the ledger counts: the same debit and credits leave the
    engine with 2^-44 when the debit comes first and with nothing when it
    comes last, and the baseline is a sixth of 2^-44 in one order and the
    fallback in the other. *)
Theorem baseline_depends_on_order :
  ∃ (now : DateFields) (l1 l2 : list Transaction),
    l1 ≡ₚ l2
    ∧ GoalsPage64.calculateAvgMonthlySavings now l1
      ≠ GoalsPage64.calculateAvgMonthlySavings now l2.
Proof.
  exists november2025, debitFirst, creditsFirst.
  split; [apply Permutation_cons_append |].
  vm_compute. discriminate.
Qed.

Example baseline_to_the_paisa :
  GoalSpec64.net debitFirst = 1 # 17592186044416
  ∧ GoalSpec64.net creditsFirst = 0%Q
  ∧ GoalsPage64.calculateAvgMonthlySavings november2025 creditsFirst = 3500%Q.
Proof. vm_compute. repeat split. Qed.

(** The window of the baseline, by calendar months. *)
Lemma Recent_InWindow (now : DateFields) (t : Transaction) :
  ¬ (0 ≤ fullYear now ≤ 99) -> 0 ≤ monthIndex now ≤ 11 ->
  GoalSpec64.calendarDate (date t) ->
  Recent now t <-> GoalSpec64.InWindow now t.
Proof.
  intros HY Hm Hc. unfold GoalSpec64.InWindow.
  destruct (date t) as [| f] eqn:Et.
  - unfold Recent. rewrite Et. cbn. split; [discriminate | contradiction].
  - destruct Hc as (Hf & Hd & Hms).
    apply (Recent_monthNumber now f t HY Hm Hf Hd Hms Et).
Qed.

Lemma filter_Recent_InWindow (now : DateFields) (txns : list Transaction) :
  ¬ (0 ≤ fullYear now ≤ 99) -> 0 ≤ monthIndex now ≤ 11 ->
  Forall (λ t, GoalSpec64.calendarDate (date t)) txns ->
  filter (Recent now) txns = filter (GoalSpec64.InWindow now) txns.
Proof.
  intros HY Hm Hall. induction Hall as [| t r Ht Hr IH]; [reflexivity |].
  rewrite !filter_cons, IH.
  pose proof (Recent_InWindow now t HY Hm Ht) as Hiff.
  repeat case_decide; tauto.
Qed.

(** The baseline looks at seven calendar months and more, and divides by
    six: for a clock whose year is not in 0..99 and a ledger of calendar
    dates, it is computed from exactly the transactions dated in the current
    month, in one of the six months before it, or later. *)
Theorem baseline_window (now : DateFields) (txns : list Transaction) :
  ¬ (0 ≤ fullYear now ≤ 99) -> 0 ≤ monthIndex now ≤ 11 ->
  Forall (λ t, GoalSpec64.calendarDate (date t)) txns ->
  txns ≠ [] ->
  GoalsPage64.calculateAvgMonthlySavings now txns
  = GoalSpec64.orFallback
      (div (GoalSpec64.net (filter (GoalSpec64.InWindow now) txns)) 6).
Proof.
  intros HY Hm Hall Hne. rewrite (baseline_netAverage now txns Hne).
  unfold GoalSpec64.netAverage. rewrite (filter_Recent_InWindow now txns HY Hm Hall).
  reflexivity.
Qed.

Lemma baseline_window_witness :
  ¬ (0 ≤ fullYear november2025 ≤ 99) ∧ 0 ≤ monthIndex november2025 ≤ 11
  ∧ Forall (λ t, GoalSpec64.calendarDate (date t)) aroundTheWindow
  ∧ BankContext.id <$> filter (GoalSpec64.InWindow november2025) aroundTheWindow
    = ["t2"; "t3"]
  ∧ GoalsPage64.calculateAvgMonthlySavings november2025 aroundTheWindow = 110%Q.
Proof.
  assert (¬ (0 ≤ fullYear november2025 ≤ 99)) as HY by (cbn; lia).
  assert (0 ≤ monthIndex november2025 ≤ 11) as Hm by (cbn; lia).
  assert (Forall (λ t, GoalSpec64.calendarDate (date t)) aroundTheWindow) as Hall
    by (repeat constructor; cbn; lia).
  split; [exact HY |]. split; [exact Hm |]. split; [exact Hall |].
  split; [vm_compute; reflexivity |].
  rewrite (baseline_window november2025 aroundTheWindow HY Hm Hall) by discriminate.
  vm_compute. reflexivity.
Defined.

(** *** The monthly contribution of a goal *)

Lemma cap64_nonneg (priority : string) (savings : Q) :
  (0 <= savings)%Q -> 0 ≤ GoalSpec64.cap priority savings.
Proof.
  intros Hs. unfold GoalSpec64.cap. apply Math_round_nonneg, mul_nonneg; [| exact Hs].
  destruct (priorityWeight_cases priority) as [-> | [-> | ->]]; lra.
Qed.

Lemma monthlyContribution64_formula (ta : Q) (dm : option Z) (priority : string)
    (savings : Q) :
  GoalsPage64.monthlyContribution (Some ta) dm priority savings
  = Z.max 0 (Math_round (Qmin (GoalSpec64.targetPerMonth ta dm)
                              (inject_Z (GoalSpec64.cap priority savings)))).
Proof.
  unfold GoalsPage64.monthlyContribution, GoalSpec64.targetPerMonth.
  fold (GoalSpec64.cap priority savings).
  f_equal. apply Math_round_comp. apply Qmin_comp; [| apply or_num_zero].
  destruct dm as [d |]; [| reflexivity].
  destruct (Z.ltb_spec 0 d); case_decide; try lia; cbn [or_nan].
  - apply or_num_zero.
  - reflexivity.
Qed.

(** The same on the form, through the host's parsers. *)
Lemma handleAddGoal64_contribution (parseFloat : string -> option Q)
    (parseInt : string -> option Z) (newGoal : Form.NewGoalForm) (ta savings : Q) :
  parseFloat (or_str (Form.target_amount newGoal) "0") = Some ta ->
  GoalsPage64.handleAddGoal_monthly_contribution parseFloat parseInt newGoal savings
  = Z.max 0 (Math_round
               (Qmin (GoalSpec64.targetPerMonth ta
                        (parseInt (or_str (Form.duration_months newGoal) "0")))
                     (inject_Z (GoalSpec64.cap (Form.priority newGoal) savings)))).
Proof.
  intros E. unfold GoalsPage64.handleAddGoal_monthly_contribution. rewrite E.
  apply monthlyContribution64_formula.
Qed.

(** C2. In the arithmetic of the engine, the monthly contribution of a
    goal whose target is the number [ta] is
    [max(0, round(min(targetPerMonth, cap)))], with the pace
    [targetAmount / durationMonths] (0 without a positive duration) and the
    cap [round(priorityWeight * savings)], the weights being 0.6, 0.4 and
    0.25 for high, medium and low; with non-negative savings it lies
    between 0 and the cap; a target of 100000 over 6 months at high
    priority with savings of 3500 gets 2100. The quotient and the product
    are those of the engine, rounded to binary64 before [round] sees
    them. *)
Theorem C2_monthly_contribution (parseFloat : string -> option Q)
    (parseInt : string -> option Z) (newGoal : Form.NewGoalForm) (ta savings : Q) :
  parseFloat (or_str (Form.target_amount newGoal) "0") = Some ta ->
  (0 <= savings)%Q ->
  GoalsPage64.handleAddGoal_monthly_contribution parseFloat parseInt newGoal savings
  = Z.max 0 (Math_round
               (Qmin (GoalSpec64.targetPerMonth ta
                        (parseInt (or_str (Form.duration_months newGoal) "0")))
                     (inject_Z (GoalSpec64.cap (Form.priority newGoal) savings))))
  ∧ 0 ≤ GoalsPage64.handleAddGoal_monthly_contribution parseFloat parseInt newGoal savings
      ≤ GoalSpec64.cap (Form.priority newGoal) savings
  ∧ priorityWeight "high" = 0.6%Q
  ∧ priorityWeight "medium" = 0.4%Q
  ∧ priorityWeight "low" = 0.25%Q
  ∧ GoalsPage64.monthlyContribution (Some 100000%Q) (Some 6) "high" 3500 = 2100.
Proof.
  intros Eta Hs.
  split; [apply (handleAddGoal64_contribution _ _ _ ta), Eta |].
  split; [| repeat split].
  rewrite (handleAddGoal64_contribution _ _ _ ta _ Eta).
  pose proof (cap64_nonneg (Form.priority newGoal) savings Hs) as Hc.
  set (c := GoalSpec64.cap (Form.priority newGoal) savings) in *.
  assert (Math_round (Qmin (GoalSpec64.targetPerMonth ta
                              (parseInt (or_str (Form.duration_months newGoal) "0")))
                           (inject_Z c)) ≤ c) as Hr.
  { rewrite <- (Math_round_inject_Z c) at 2. apply Math_round_mono, Q.le_min_r. }
  lia.
Qed.

Lemma C2_monthly_contribution_witness :
  Examples.parseFloat (or_str (Form.target_amount scenarioC) "0") = Some 100000%Q
  ∧ (0 <= 3500)%Q
  ∧ GoalsPage64.handleAddGoal_monthly_contribution Examples.parseFloat Examples.parseInt
      scenarioC 3500 = 2100
  ∧ 0 ≤ GoalsPage64.handleAddGoal_monthly_contribution Examples.parseFloat Examples.parseInt
          scenarioC 3500
      ≤ GoalSpec64.cap "high" 3500.
Proof.
  split; [reflexivity |]. split; [discriminate |].
  destruct (C2_monthly_contribution Examples.parseFloat Examples.parseInt scenarioC
              100000 3500) as (H1 & H2 & _).
  - reflexivity.
  - discriminate.
  - split; [rewrite H1; vm_compute; reflexivity | exact H2].
Defined.

(** A single credit of 35 makes a baseline of 5.833333333333333; at high
    priority the engine's product with 0.6 is 3.4999999999999996, the cap is
    3 and so is the contribution. With exact rationals the product of 0.6
    and 35/6 would be 3.5 and the cap 4. *)
Example contribution_credit35 :
  GoalsPage64.calculateAvgMonthlySavings november2025 credit35
  = 6567749456581973 # 1125899906842624
  ∧ GoalSpec64.cap "high" (GoalsPage64.calculateAvgMonthlySavings november2025 credit35) = 3
  ∧ GoalsPage64.handleAddGoal_monthly_contribution Examples.parseFloat Examples.parseInt
      scenarioC (GoalsPage64.calculateAvgMonthlySavings november2025 credit35) = 3
  ∧ GoalSpec.cap "high" (35 / 6) = 4.
Proof. vm_compute. repeat split. Qed.

(** At a baseline of 27310.833333333332 the product with 0.6 is rounded up
    to 16386.5, and the cap is 16387. *)
Example cap_rounded_up : GoalSpec64.cap "high" 27310.833333333332 = 16387.
Proof. vm_compute. reflexivity. Qed.

(** Whichever of the pace and the cap is smaller decides: within the cap the
    contribution is the rounded pace; beyond it, the cap. *)
Theorem contribution_binding_constraint (parseFloat : string -> option Q)
    (parseInt : string -> option Z) (newGoal : Form.NewGoalForm) (ta savings : Q) :
  parseFloat (or_str (Form.target_amount newGoal) "0") = Some ta ->
  (0 <= savings)%Q ->
  ((GoalSpec64.targetPerMonth ta (parseInt (or_str (Form.duration_months newGoal) "0"))
    <= inject_Z (GoalSpec64.cap (Form.priority newGoal) savings))%Q ->
   GoalsPage64.handleAddGoal_monthly_contribution parseFloat parseInt newGoal savings
   = Z.max 0 (Math_round
                (GoalSpec64.targetPerMonth ta
                   (parseInt (or_str (Form.duration_months newGoal) "0")))))
  ∧ ((inject_Z (GoalSpec64.cap (Form.priority newGoal) savings)
      < GoalSpec64.targetPerMonth ta
          (parseInt (or_str (Form.duration_months newGoal) "0")))%Q ->
     GoalsPage64.handleAddGoal_monthly_contribution parseFloat parseInt newGoal savings
     = GoalSpec64.cap (Form.priority newGoal) savings).
Proof.
  intros Eta Hs. rewrite (handleAddGoal64_contribution _ _ _ ta _ Eta).
  pose proof (cap64_nonneg (Form.priority newGoal) savings Hs) as Hc.
  split; intros H.
  - f_equal. apply Math_round_comp, Q.min_l, H.
  - rewrite (Math_round_comp _ (inject_Z (GoalSpec64.cap (Form.priority newGoal) savings)))
      by (apply Q.min_r; lra).
    rewrite Math_round_inject_Z. lia.
Qed.

Lemma contribution_binding_constraint_witness :
  Examples.parseFloat (or_str (Form.target_amount scenarioC) "0") = Some 100000%Q
  ∧ (0 <= GoalsPage64.calculateAvgMonthlySavings november2025 credit35)%Q
  ∧ GoalsPage64.handleAddGoal_monthly_contribution Examples.parseFloat Examples.parseInt
      scenarioC (GoalsPage64.calculateAvgMonthlySavings november2025 credit35)
    = GoalSpec64.cap "high" (GoalsPage64.calculateAvgMonthlySavings november2025 credit35)
  ∧ GoalSpec64.cap "high" (GoalsPage64.calculateAvgMonthlySavings november2025 credit35) = 3.
Proof.
  split; [reflexivity |]. split; [vm_compute; discriminate |].
  split; [| vm_compute; reflexivity].
  destruct (contribution_binding_constraint Examples.parseFloat Examples.parseInt
              scenarioC 100000
              (GoalsPage64.calculateAvgMonthlySavings november2025 credit35)) as [_ H].
  - reflexivity.
  - vm_compute. discriminate.
  - apply H. vm_compute. reflexivity.
Defined.

(** Without a duration the contribution is 0 in the arithmetic of the
    engine too. *)
Lemma no_duration_binary64 (parseFloat : string -> option Q)
    (parseInt : string -> option Z) (newGoal : Form.NewGoalForm) (savings : Q) :
  parseInt "0" = Some 0 ->
  Form.duration_months newGoal = "" ∨ parseInt (Form.duration_months newGoal) = Some 0 ->
  GoalsPage64.handleAddGoal_monthly_contribution parseFloat parseInt newGoal savings = 0.
Proof.
  intros H0 Hd.
  assert (parseInt (or_str (Form.duration_months newGoal) "0") = Some 0) as E.
  { destruct Hd as [Hd | Hd].
    - rewrite Hd. exact H0.
    - destruct (Form.duration_months newGoal); [exact H0 | exact Hd]. }
  unfold GoalsPage64.handleAddGoal_monthly_contribution, GoalsPage64.monthlyContribution.
  rewrite E. cbn [Z.ltb Z.compare or_nan]. apply contribution_zero.
  rewrite or_num_zero. lra.
Qed.

(** *** The rebalance *)

(** The body of the loop computes the allocation the specification
    describes. *)
Lemma allocationOf64_formula (goals : list Goal) (savings : Q) (i : nat) (g : Goal) :
  goals !! i = Some g ->
  GoalsPage64.allocationOf (map (fun g => weightOf (priority g)) goals)
    (sumWeights (map (fun g => weightOf (priority g)) goals)) savings i g
  = Z.max 0 (Z.min (GoalSpec64.base goals g savings) (GoalSpec64.paceCap g)).
Proof.
  intros Hi. unfold GoalsPage64.allocationOf, GoalSpec64.base, GoalSpec64.paceCap.
  assert (goals ≠ []) as Hne by (intros ->; discriminate Hi).
  rewrite (sumWeights_totalScore goals Hne).
  rewrite map_fmap, list_lookup_fmap, Hi. cbn [fmap option_fmap option_map default].
  rewrite weightOf_priorityScore, or_nan_durationOr6. reflexivity.
Qed.

Lemma computeRebalanceAllocations64_writes (goals : list Goal) (savings : Q) :
  goals ≠ [] ->
  GoalsPage64.computeRebalanceAllocations goals savings
  = fold_left
      (write (GoalsPage64.allocationOf (map (fun g => weightOf (priority g)) goals)
                (sumWeights (map (fun g => weightOf (priority g)) goals)) savings))
      (imap pair goals) ∅.
Proof.
  intros Hne. unfold GoalsPage64.computeRebalanceAllocations.
  destruct goals as [| g r]; [contradiction | reflexivity].
Qed.

(** The entry of a goal in the record, when no later goal bears its id. *)
Lemma rebalance64_lookup (goals : list Goal) (savings : Q) (i : nat) (g : Goal) :
  goals !! i = Some g ->
  (∀ j g', (i < j)%nat -> goals !! j = Some g' -> id g' ≠ id g) ->
  GoalsPage64.computeRebalanceAllocations goals savings !! id g
  = Some (Z.max 0 (Z.min (GoalSpec64.base goals g savings) (GoalSpec64.paceCap g))).
Proof.
  intros Hi Hlater.
  assert (goals ≠ []) as Hne by (intros ->; discriminate Hi).
  rewrite (computeRebalanceAllocations64_writes goals savings Hne).
  rewrite (writes_last _ _ _ i i g).
  - f_equal. apply allocationOf64_formula, Hi.
  - rewrite list_lookup_imap, Hi. reflexivity.
  - intros m [j g'] Hm Hp. rewrite list_lookup_imap in Hp.
    destruct (goals !! m) as [g'' |] eqn:Eg; [| discriminate Hp].
    injection Hp as <- <-. apply (Hlater m g'' Hm Eg).
Qed.

(** C3. In the arithmetic of the engine, the rebalance gives each goal
    the allocation [max(0, min(base, paceCap))]: the base is the goal's
    share of the savings by priority score (3, 2, 1, and 1 for anything
    else), rounded; the pace cap is what remains to be saved over the
    duration (6 months when it is absent or zero, at least 1), rounded. The
    share, its product with the savings, the remainder and its quotient by
    the duration are those of the engine, rounded to binary64 before
    [round] sees them. That is the value the loop writes for the goal; the
    allocations are stored by goal id, so it is the goal's entry in the
    result when no later goal bears the same id, and hence the entry of
    every goal when the ids are distinct. *)
Theorem C3_rebalance_allocation (goals : list Goal) (savings : Q) (i : nat) (g : Goal) :
  goals !! i = Some g ->
  GoalsPage64.allocationOf (map (fun g => weightOf (priority g)) goals)
    (sumWeights (map (fun g => weightOf (priority g)) goals)) savings i g
  = Z.max 0 (Z.min (GoalSpec64.base goals g savings) (GoalSpec64.paceCap g))
  ∧ ((∀ j g', (i < j)%nat -> goals !! j = Some g' -> id g' ≠ id g) ->
     GoalsPage64.computeRebalanceAllocations goals savings !! id g
     = Some (Z.max 0 (Z.min (GoalSpec64.base goals g savings) (GoalSpec64.paceCap g))))
  ∧ (NoDup (id <$> goals) ->
     GoalsPage64.computeRebalanceAllocations goals savings !! id g
     = Some (Z.max 0 (Z.min (GoalSpec64.base goals g savings) (GoalSpec64.paceCap g)))).
Proof.
  intros Hi. split; [apply allocationOf64_formula, Hi |].
  split; [apply rebalance64_lookup, Hi |].
  intros Hnd. apply (rebalance64_lookup goals savings i g Hi).
  intros j g' Hlt Hj. apply (NoDup_ids_later goals i j g g' Hnd Hi Hj Hlt).
Qed.

Lemma C3_rebalance_allocation_witness :
  scenarioE !! 1%nat = Some (mkGoal "g2" "Phone" 3000 600 None None (Some "low"))
  ∧ NoDup (id <$> scenarioE)
  ∧ GoalsPage64.computeRebalanceAllocations scenarioE 4000 !! "g2" = Some 400.
Proof.
  assert (NoDup (id <$> scenarioE)) as Hnd
    by (apply (bool_decide_unpack _); vm_compute; reflexivity).
  split; [reflexivity |]. split; [exact Hnd |].
  destruct (C3_rebalance_allocation scenarioE 4000 1
              (mkGoal "g2" "Phone" 3000 600 None None (Some "low")))
    as (_ & _ & H); [reflexivity |].
  etrans; [exact (H Hnd) | vm_compute; reflexivity].
Defined.

(** A goal of high and a goal of medium priority on the baseline of a
    single credit of 35: the shares are three and two fifths; the engine's
    product of 0.6 and 5.833333333333333 is 3.4999999999999996, so the first
    goal gets 3, not 4. *)
Example rebalance_credit35 :
  GoalSpec64.base highMedium (mkGoal "g1" "Car" 100000 0 (Some 6%Q) None (Some "high"))
    (GoalsPage64.calculateAvgMonthlySavings november2025 credit35) = 3
  ∧ GoalsPage64.computeRebalanceAllocations highMedium
      (GoalsPage64.calculateAvgMonthlySavings november2025 credit35) !! "g1" = Some 3
  ∧ GoalsPage64.computeRebalanceAllocations highMedium
      (GoalsPage64.calculateAvgMonthlySavings november2025 credit35) !! "g2" = Some 2
  ∧ GoalSpec.base highMedium (mkGoal "g1" "Car" 100000 0 (Some 6%Q) None (Some "high"))
      (35 / 6) = 4.
Proof. vm_compute. repeat split. Qed.

(** Three goals of high priority share 3500 into three allocations of 1167
    in the arithmetic of the engine too. *)
Example threeHigh_binary64 :
  GoalSpec.totalAllocated (GoalsPage64.computeRebalanceAllocations threeHigh 3500) = 3501.
Proof. vm_compute. reflexivity. Qed.

(** *** Applying a rebalance *)

(** Applying the proposal of a rebalance, for goals of distinct ids, sends
    one update per goal, whatever order the entries come in: the goal's own
    fields, its priority (medium if it has none) and, as its monthly
    contribution, its allocation. *)
Theorem applyRebalance_updates (uid : string) (cards : list GoalCard)
    (savings : Q) (entries : list (string * Z)) :
  uid ≠ "" ->
  NoDup ((λ c, id (goal c)) <$> cards) ->
  entries ≡ₚ map_to_list (GoalsPage64.computeRebalanceAllocations (goal <$> cards) savings) ->
  Rebalancing.applyRebalance (Some uid) cards entries
  ≡ₚ (λ c, (id (goal c),
            Rebalancing.updateOf c
              (Z.max 0 (Z.min (GoalSpec64.base (goal <$> cards) (goal c) savings)
                              (GoalSpec64.paceCap (goal c)))))) <$> cards.
Proof.
  intros Hu Hnd He. unfold Rebalancing.applyRebalance. cbn [or_undef].
  destruct uid as [| c0 r0]; [contradiction |]. cbn [or_str].
  rewrite He. clear He entries.
  destruct cards as [| c1 cs] eqn:Ec; [reflexivity |].
  rewrite <- Ec in *. assert (goal <$> cards ≠ []) as Hne by (rewrite Ec; discriminate).
  clear Ec c1 cs.
  assert (id <$> (goal <$> cards) = (λ c, id (goal c)) <$> cards) as Eids
    by (rewrite <- list_fmap_compose; reflexivity).
  rewrite (computeRebalanceAllocations64_writes _ savings Hne).
  rewrite map_to_list_writes.
  - rewrite map_to_list_empty, app_nil_r.
    assert ((λ p : nat * Goal,
               (id p.2,
                GoalsPage64.allocationOf
                  (map (λ g, weightOf (priority g)) (goal <$> cards))
                  (sumWeights (map (λ g, weightOf (priority g)) (goal <$> cards)))
                  savings p.1 p.2)) <$> imap pair (goal <$> cards)
            = (λ c, (id (goal c),
                     Z.max 0 (Z.min (GoalSpec64.base (goal <$> cards) (goal c) savings)
                                    (GoalSpec64.paceCap (goal c))))) <$> cards) as ->.
    { apply list_eq. intros i.
      rewrite !list_lookup_fmap, list_lookup_imap, list_lookup_fmap.
      destruct (cards !! i) as [c |] eqn:Hi; [| reflexivity]. cbn.
      do 2 f_equal. apply allocationOf64_formula.
      rewrite list_lookup_fmap, Hi. reflexivity. }
    assert (∀ l : list GoalCard, (∀ c, c ∈ l -> c ∈ cards) ->
              omap (fun '(goalId, amount) =>
                      match List.find (fun g => String.eqb (id (goal g)) goalId) cards with
                      | Some card => Some (goalId, Rebalancing.updateOf card amount)
                      | None => None
                      end)
                   ((λ c, (id (goal c),
                           Z.max 0 (Z.min (GoalSpec64.base (goal <$> cards) (goal c) savings)
                                          (GoalSpec64.paceCap (goal c))))) <$> l)
              = (λ c, (id (goal c),
                       Rebalancing.updateOf c
                         (Z.max 0 (Z.min (GoalSpec64.base (goal <$> cards) (goal c) savings)
                                         (GoalSpec64.paceCap (goal c)))))) <$> l) as Hmap.
    { induction l as [| c l IH]; intros Hl; [reflexivity |].
      rewrite !fmap_cons. cbn [omap list_omap].
      rewrite (find_by_id cards c Hnd) by (apply Hl; left).
      fold (@omap list _ (string * Z) (string * Rebalancing.Update)).
      f_equal. apply IH. intros c' Hc'. apply Hl. now right. }
    rewrite Hmap by auto. reflexivity.
  - assert ((λ p : nat * Goal, id p.2) <$> imap pair (goal <$> cards)
            = id <$> (goal <$> cards)) as ->.
    { apply list_eq. intros i. rewrite !list_lookup_fmap, list_lookup_imap.
      rewrite list_lookup_fmap. destruct (cards !! i); reflexivity. }
    rewrite Eids. exact Hnd.
  - intros p _. apply lookup_empty.
Qed.

Lemma applyRebalance_updates_witness :
  NoDup ((λ c, id (goal c)) <$> highMediumCards)
  ∧ Rebalancing.applyRebalance (Some "u1") highMediumCards
      (map_to_list (GoalsPage64.computeRebalanceAllocations (goal <$> highMediumCards)
                      (GoalsPage64.calculateAvgMonthlySavings november2025 credit35)))
    ≡ₚ (λ c, (id (goal c),
              Rebalancing.updateOf c
                (Z.max 0 (Z.min (GoalSpec64.base (goal <$> highMediumCards) (goal c)
                                   (GoalsPage64.calculateAvgMonthlySavings november2025
                                      credit35))
                                (GoalSpec64.paceCap (goal c)))))) <$> highMediumCards.
Proof.
  assert (NoDup ((λ c, id (goal c)) <$> highMediumCards)) as Hnd
    by (apply (bool_decide_unpack _); vm_compute; reflexivity).
  split; [exact Hnd |].
  apply (applyRebalance_updates "u1" highMediumCards
           (GoalsPage64.calculateAvgMonthlySavings november2025 credit35));
    [discriminate | exact Hnd |].
  reflexivity.
Defined.

(** The updates of the two goals on the baseline of a single credit of 35
    carry 3 and 2. *)
Example applyRebalance_credit35 :
  (λ p, (p.1, Rebalancing.u_monthly_contribution p.2))
  <$> Rebalancing.applyRebalance (Some "u1") highMediumCards
        (map_to_list (GoalsPage64.computeRebalanceAllocations (goal <$> highMediumCards)
                        (GoalsPage64.calculateAvgMonthlySavings november2025 credit35)))
  ≡ₚ [("g1", 3); ("g2", 2)].
Proof. apply (bool_decide_unpack _). vm_compute. reflexivity. Qed.

End GoalsPage64Facts.
